(** * server.js: authentication, admission and resource handlers

    A shallow embedding of [src/server.js] (an Express application) and
    the properties of its authentication gate, credential store, token
    handling and request admission.

    The handlers of [server.js] are embedded as functions over an explicit
    server state, behind the middleware stack in the order of its
    [app.use] calls (body parser, limiter, routes).  The third-party
    packages the file calls ([jsonwebtoken] with its [jws] back end,
    [bcryptjs], [mongoose]) are interfaces: their operations are class
    methods, their documented contracts are laws, and [Module Reference]
    gives an executable instance of each on which statements are
    evaluated. *)

From Stdlib Require Import ZArith String Ascii List Bool Lia.
From stdpp Require Import base option countable gmap strings list.

Local Open Scope string_scope.
Local Open Scope list_scope.
Local Open Scope Z_scope.

(** ** JavaScript values that occur in request and token payloads *)

Inductive json : Type :=
  | JNull
  | JBool (b : bool)
  | JNum (n : Z)
  | JStr (s : string).

#[global] Instance json_eq_dec : EqDecision json.
Proof. solve_decision. Defined.

Definition json_to_sum (j : json) : unit + bool + Z + string :=
  match j with
  | JNull => inl (inl (inl tt))
  | JBool b => inl (inl (inr b))
  | JNum n => inl (inr n)
  | JStr s => inr s
  end.

Definition json_of_sum (x : unit + bool + Z + string) : json :=
  match x with
  | inl (inl (inl _)) => JNull
  | inl (inl (inr b)) => JBool b
  | inl (inr n) => JNum n
  | inr s => JStr s
  end.

#[global] Instance json_countable : Countable json.
Proof.
  apply (inj_countable' json_to_sum json_of_sum).
  by intros [].
Defined.

(** A JSON object with string keys: a token payload, a request body. *)
Abbreviation object := (gmap string json).

(** [typeof v === 'string'] *)
Definition isString (v : option json) : bool :=
  match v with Some (JStr _) => true | _ => false end.

(** ** Exceptions and [try]/[catch] *)

Inductive exn : Type :=
  | TypeError (msg : string)
  | JsonWebTokenError (msg : string)
  | NotBeforeError (msg : string)
  | TokenExpiredError (msg : string)
  | CastError (msg : string)
  | ValidationError (msg : string)
  | MongoServerError (msg : string).

Definition error_message (e : exn) : string :=
  match e with
  | TypeError m | JsonWebTokenError m | NotBeforeError m | TokenExpiredError m
  | CastError m | ValidationError m | MongoServerError m => m
  end.

Inductive result (A : Type) : Type :=
  | Return (a : A)
  | Throw (e : exn).
Arguments Return {A} a.
Arguments Throw {A} e.

#[global] Instance result_ret : MRet result := λ A a, Return a.
#[global] Instance result_bind : MBind result := λ A B k m,
  match m with
  | Return a => k a
  | Throw e => Throw e
  end.

(** ** String primitives *)

(** [s.split(sep)] for a one-character separator: every occurrence of the
    separator cuts, so the result is never empty. *)
Fixpoint split_on (sep : ascii) (s : string) : list string :=
  match s with
  | EmptyString => [EmptyString]
  | String a s' =>
      if Ascii.eqb a sep then EmptyString :: split_on sep s'
      else match split_on sep s' with
           | h :: t => String a h :: t
           | [] => [String a EmptyString]
           end
  end.

(** [token.split(' ')] on a value that may be [undefined]: a method call
    on [undefined] throws a [TypeError]. *)
Definition js_split (token : option string) (sep : ascii) : result (list string) :=
  match token with
  | None => Throw (TypeError "Cannot read properties of undefined (reading 'split')")
  | Some s => Return (split_on sep s)
  end.

Definition is_space (a : ascii) : bool :=
  match a with
  | " "%char | "009"%char | "010"%char | "011"%char | "012"%char | "013"%char => true
  | _ => false
  end.

(** [s.trim() === ''] *)
Fixpoint is_blank (s : string) : bool :=
  match s with
  | EmptyString => true
  | String a s' => is_space a && is_blank s'
  end.

Fixpoint contains (c : ascii) (s : string) : bool :=
  match s with
  | EmptyString => false
  | String a s' => Ascii.eqb a c || contains c s'
  end.

(** ** Responses *)

Inductive body : Type :=
  | ErrorBody (error : string)                    (* { error } *)
  | ErrorsBody (errors : list string)             (* { errors: [...] }, by their msg *)
  | MessageBody (message : string)                (* { message } *)
  | TokenBody (message : string) (token : string) (* { message, token } *)
  | DocBody (id : string) (doc : object)          (* a stored document *)
  | DocsBody (docs : list (string * object))      (* an array of documents *)
  | TextBody (text : string).                     (* res.send(text) *)

Record response : Type := mkResponse { status : Z; json_body : body }.

(** [res.status(code).json(b)]; [res.json(b)] leaves the status at 200. *)
Definition res_status_json (code : Z) (b : body) : response := mkResponse code b.
Definition res_json (b : body) : response := mkResponse 200 b.

#[global] Instance body_eq_dec : EqDecision body.
Proof. solve_decision. Defined.
#[global] Instance response_eq_dec : EqDecision response.
Proof. solve_decision. Defined.

(** ** The [jws] back end of [jsonwebtoken] *)

Class Jws : Type := {
  (** [jws.sign({ header, payload, secret })]: the compact serialization *)
  jws_sign : object → string → string;
  (** [decode(token, { complete: true }).payload], [None] when it is null *)
  jws_decode : string → option object;
  (** [jws.verify(token, alg, secret)] for an algorithm of the HMAC family *)
  jws_verify : string → string → bool
}.

(** The shape of a compact serialization: three segments separated by
    dots, the last one not blank, no space anywhere. *)
Definition compact (t : string) : bool :=
  match split_on "." t with
  | [_; _; s] => negb (is_blank s) && negb (contains " " t)
  | _ => false
  end.

Class JwsLaws (J : Jws) : Prop := {
  jws_decode_sign : ∀ p k, jws_decode (jws_sign p k) = Some p;
  jws_verify_sign : ∀ p k, jws_verify (jws_sign p k) k = true;
  jws_sign_compact : ∀ p k, compact (jws_sign p k) = true
}.

(** ** [jsonwebtoken] *)

Definition JWT_SECRET : string := "my-secret-key".

(** [ms('1h')] *)
Definition ms_1h : Z := 60 * 60 * 1000.

Section Jwt.
Context {J : Jws}.

(** [jwt.sign(payload, secret, { expiresIn: '1h' })] at [Date.now() = now],
    for a payload object without [iat] and [exp] of its own, as at both
    call sites: the issue time is the clock in whole seconds, the expiry
    is [timespan('1h', timestamp)], and the result is signed by [jws]. *)
Definition jwt_sign (payload : object) (secret : string) (now : Z) : string :=
  let timestamp := now / 1000 in
  let payload := <["iat" := JNum timestamp]> payload in
  let payload := <["exp" := JNum (timestamp + ms_1h / 1000)]> payload in
  jws_sign payload secret.

(** [jwt.verify(jwtString, secret)] at [Date.now() = now], with no
    options, in the order of the package's checks: the token is there, it
    has three parts, it decodes, it has a signature, the signature is
    valid, [nbf] has been reached, [exp] has not.  Each failed check
    throws. *)
Definition jwt_verify (jwtString : option string) (secret : string) (now : Z)
  : result object :=
  let clockTimestamp := now / 1000 in
  match jwtString with
  | None | Some EmptyString => Throw (JsonWebTokenError "jwt must be provided")
  | Some t =>
      let parts := split_on "." t in
      if negb (length parts =? 3)%nat then Throw (JsonWebTokenError "jwt malformed") else
      match jws_decode t with
      | None => Throw (JsonWebTokenError "invalid token")
      | Some payload =>
          let hasSignature := negb (is_blank (default EmptyString (parts !! 2%nat))) in
          if negb hasSignature then Throw (JsonWebTokenError "jwt signature is required") else
          if negb (jws_verify t secret) then Throw (JsonWebTokenError "invalid signature") else
          match payload !! "nbf" with
          | None => Return tt
          | Some (JNum nbf) =>
              if nbf >? clockTimestamp then Throw (NotBeforeError "jwt not active")
              else Return tt
          | Some _ => Throw (JsonWebTokenError "invalid nbf value")
          end ;;
          match payload !! "exp" with
          | None => Return tt
          | Some (JNum exp) =>
              if clockTimestamp >=? exp then Throw (TokenExpiredError "jwt expired")
              else Return tt
          | Some _ => Throw (JsonWebTokenError "invalid exp value")
          end ;;
          Return payload
      end
  end.
End Jwt.

(** ** Requests and the authentication middleware *)

Record request : Type := mkIncoming {
  header_Authorization : option string;  (* req.header('Authorization') *)
  params_id : string;                    (* req.params.id *)
  req_body : object;                     (* req.body, once parsed *)
  req_user : option object;              (* req.user *)
  (* what express.json() makes of the body: [None] when it parses it or
     there is nothing to parse, [Some (status, page)] when it refuses it,
     with the status of the error (400 for a syntax error, 413 for a body
     that is too large) and the page of Express's error handler *)
  body_error : option (Z * string)
}.

(** A request whose body the parser accepts *)
Definition mkRequest (header : option string) (id : string) (body : object)
    (user : option object) : request :=
  mkIncoming header id body user None.

Definition set_user (req : request) (verified : object) : request :=
  mkIncoming (header_Authorization req) (params_id req) (req_body req) (Some verified)
    (body_error req).

(** What a middleware does with a request: answer it, or call [next()]. *)
Inductive outcome : Type :=
  | Respond (res : response)
  | Next (req : request).

(** [app.use(express.json())]: a body that does not parse ends the
    request there, answered by Express's error handler with the error's
    status; otherwise the request goes on with [req.body] set. *)
Definition express_json (req : request) : outcome :=
  match body_error req with
  | Some (code, page) => Respond (mkResponse code (TextBody page))
  | None => Next req
  end.

Section Auth.
Context {J : Jws}.

Definition authenticateJWT (req : request) (now : Z) : outcome :=
  let token := header_Authorization req in
  match
    (parts ← js_split token " ";
     let extractedToken := parts !! 1%nat in
     jwt_verify extractedToken JWT_SECRET now)
  with
  | Return verified => Next (set_user req verified)
  | Throw err => Respond (res_status_json 400 (ErrorBody "Invalid token provided"))
  end.
End Auth.

(** ** Vocabulary of the statements *)

(** The time claims of a payload at [Date.now() = now]: [unexpired] when
    it has no [exp] or a numeric one beyond the clock's whole second,
    [active] when it has no [nbf] or a numeric one that has been reached. *)
Definition unexpired (payload : object) (now : Z) : bool :=
  match payload !! "exp" with
  | None => true
  | Some (JNum exp) => now / 1000 <? exp
  | Some _ => false
  end.

Definition active (payload : object) (now : Z) : bool :=
  match payload !! "nbf" with
  | None => true
  | Some (JNum nbf) => nbf <=? now / 1000
  | Some _ => false
  end.

(** A credential header with no scheme and token part: absent, or without
    a space to split on. *)
Definition malformed (header : option string) : bool :=
  match header with
  | None => true
  | Some h => negb (contains " " h)
  end.

Definition rejection (o : outcome) : option response :=
  match o with
  | Respond res => Some res
  | Next _ => None
  end.

Definition returns {A} (r : result A) : bool :=
  match r with
  | Return _ => true
  | Throw _ => false
  end.

Definition InvalidToken : response :=
  res_status_json 400 (ErrorBody "Invalid token provided").

(** ** [bcryptjs] *)

Class Bcrypt : Type := {
  (** [bcrypt.hash(s, rounds)], with the salt the call draws made explicit *)
  bcrypt_hash : string → Z → string → string;
  (** [bcrypt.compare(s, hash)] *)
  bcrypt_compare : string → string → bool
}.


(** ** [mongoose]: the cast of a path parameter to the [_id] type, and
    the messages of the errors it throws *)

Class Mongoose : Type := {
  (** the canonical form of an id the [ObjectId] type accepts, [None] when
      the cast fails *)
  castObjectId : string → option string;
  (** [error.message] of the [CastError] for a value that is no [_id] *)
  castErrorMessage : string → string;
  (** [error.message] of the [ValidationError] for the paths that fail *)
  validationErrorMessage : list string → string;
  (** [error.message] of the duplicate key error for an [_id] *)
  duplicateKeyMessage : string → string
}.

(** ** Server state *)

Record user : Type := mkUser { username : string; password : string }.

#[global] Instance user_eq_dec : EqDecision user.
Proof. solve_decision. Defined.

Record server : Type := mkServer {
  users : list user;                 (* const users = [] *)
  webtoons : gmap string object;     (* the 'webtoons' collection, by _id *)
  hits : gmap string (nat * Z)       (* the limiter's counters, by origin *)
}.

Definition set_users (σ : server) (us : list user) : server :=
  mkServer us (webtoons σ) (hits σ).
Definition set_webtoons (σ : server) (ws : gmap string object) : server :=
  mkServer (users σ) ws (hits σ).
Definition set_hits (σ : server) (hs : gmap string (nat * Z)) : server :=
  mkServer (users σ) (webtoons σ) hs.

Definition initial : server := mkServer [] ∅ ∅.

(** What a request handler reads from outside the request: the clock, the
    salt [bcrypt.hash] draws, the [_id] a new document is given, and the
    origin the limiter keys on. *)
Record env : Type := mkEnv {
  now : Z;          (* Date.now(), in milliseconds *)
  salt : string;
  fresh_id : string;
  ip : string
}.

(** ** Registration and login

    The handlers are embedded for request bodies whose [username] and
    [password] are strings. *)

Section Accounts.
Context {J : Jws} {B : Bcrypt}.

(** [users.find(user => user.username === username)] *)
Definition find_user (u : string) (us : list user) : option user :=
  find (λ user, String.eqb (username user) u) us.

(** [POST /register] after its [await]: the part that runs once the
    hash is available. *)
Definition register_resume (e : env) (u p : string) (σ : server) : response * server :=
  let hashedPassword := bcrypt_hash p 10 (salt e) in
  let newUser := mkUser u hashedPassword in
  let σ := set_users σ (users σ ++ [newUser]) in
  let token := jwt_sign {["username" := JStr (username newUser)]} JWT_SECRET (now e) in
  (res_json (TokenBody "User registered successfully" token), σ).

(** [POST /register] run to completion *)
Definition register (e : env) (u p : string) (σ : server) : response * server :=
  let existingUser := find_user u (users σ) in
  match existingUser with
  | Some _ => (res_status_json 400 (ErrorBody "User already exists"), σ)
  | None => register_resume e u p σ
  end.

(** [POST /login] *)
Definition login (e : env) (u p : string) (σ : server) : response * server :=
  let user := find_user u (users σ) in
  match user with
  | None => (res_status_json 400 (ErrorBody "Invalid credentials"), σ)
  | Some user =>
      let isMatch := bcrypt_compare p (password user) in
      if negb isMatch then (res_status_json 400 (ErrorBody "Invalid credentials"), σ)
      else
        let token := jwt_sign {["username" := JStr (username user)]} JWT_SECRET (now e) in
        (res_json (TokenBody "Logged in successfully" token), σ)
  end.
End Accounts.

(** ** Resource handlers *)

Section Webtoons.
Context {J : Jws} {M : Mongoose}.

(** [Webtoon.findById(id)] *)
Definition findById (id : string) (ws : gmap string object)
  : result (option (string * object)) :=
  match castObjectId id with
  | None => Throw (CastError (castErrorMessage id))
  | Some oid => Return (pair oid <$> ws !! oid)
  end.

(** [Webtoon.findByIdAndDelete(id)] *)
Definition findByIdAndDelete (id : string) (ws : gmap string object)
  : result (option object * gmap string object) :=
  match castObjectId id with
  | None => Throw (CastError (castErrorMessage id))
  | Some oid => Return (ws !! oid, delete oid ws)
  end.

(** The schema's [required: true] on a string path: present and not empty. *)
Definition required (v : option json) : bool :=
  match v with
  | Some (JStr s) => negb (String.eqb s EmptyString)
  | _ => false
  end.

(** The paths of the document that fail the schema's validation *)
Definition failing_paths (doc : object) : list string :=
  (if required (doc !! "title") then [] else ["title"]) ++
  (if required (doc !! "description") then [] else ["description"]).

(** [new Webtoon({ title, description, characters }).save()]: the
    document is validated against the schema and inserted under its [_id]
    with the version key [__v: 0]; the result is the document as saved
    and the collection with it. *)
Definition save (oid : string) (doc : object) (ws : gmap string object)
  : result (object * gmap string object) :=
  match failing_paths doc with
  | (_ :: _) as paths => Throw (ValidationError (validationErrorMessage paths))
  | [] =>
      match ws !! oid with
      | Some _ => Throw (MongoServerError (duplicateKeyMessage oid))
      | None =>
          let saved := <["__v" := JNum 0]> doc in
          Return (saved, <[oid := saved]> ws)
      end
  end.

(** [GET /webtoons] *)
Definition get_webtoons (σ : server) : response * server :=
  (res_json (DocsBody (map_to_list (webtoons σ))), σ).

(** [GET /webtoons/:id] *)
Definition get_webtoon (req : request) (σ : server) : response * server :=
  match findById (params_id req) (webtoons σ) with
  | Return None => (res_status_json 404 (ErrorBody "Webtoon not found"), σ)
  | Return (Some (oid, webtoon)) => (res_json (DocBody oid webtoon), σ)
  | Throw error => (res_status_json 500 (ErrorBody (error_message error)), σ)
  end.

(** [validateWebtoon] followed by [validationResult(req)] *)
Definition validateWebtoon (b : object) : list string :=
  (if isString (b !! "title") then [] else ["Title must be a string"]) ++
  (if isString (b !! "description") then [] else ["Description must be a string"]) ++
  (match b !! "characters" with
   | None => []
   | v => if isString v then [] else ["Characters must be a string if provided"]
   end).

(** The object literal [{ title, description, characters }]: a field that
    is [undefined] is not stored. *)
Definition pick (b : object) : object :=
  filter (λ kv, kv.1 = "title" ∨ kv.1 = "description" ∨ kv.1 = "characters") b.

(** The handler of [POST /webtoons], after the middlewares *)
Definition post_webtoons_handler (e : env) (req : request) (σ : server)
  : response * server :=
  match validateWebtoon (req_body req) with
  | (_ :: _) as errors => (res_status_json 400 (ErrorsBody errors), σ)
  | [] =>
      let newWebtoon := pick (req_body req) in
      match save (fresh_id e) newWebtoon (webtoons σ) with
      | Return (newWebtoon, ws) =>
          (res_status_json 201 (DocBody (fresh_id e) newWebtoon), set_webtoons σ ws)
      | Throw error => (res_status_json 500 (ErrorBody (error_message error)), σ)
      end
  end.

(** The handler of [DELETE /webtoons/:id], after the middleware *)
Definition delete_webtoon_handler (req : request) (σ : server) : response * server :=
  match findByIdAndDelete (params_id req) (webtoons σ) with
  | Return (None, _) => (res_status_json 404 (ErrorBody "Webtoon not found"), σ)
  | Return (Some _, ws) => (res_json (MessageBody "Webtoon deleted successfully"), set_webtoons σ ws)
  | Throw error => (res_status_json 500 (ErrorBody (error_message error)), σ)
  end.

(** A route behind [authenticateJWT] *)
Definition protected (handler : request → server → response * server)
    (e : env) (req : request) (σ : server) : response * server :=
  match authenticateJWT req (now e) with
  | Respond res => (res, σ)
  | Next req => handler req σ
  end.

(** [app.post('/webtoons', authenticateJWT, validateWebtoon, ...)] *)
Definition post_webtoons (e : env) : request → server → response * server :=
  protected (post_webtoons_handler e) e.

(** [app.delete('/webtoons/:id', authenticateJWT, ...)] *)
Definition delete_webtoon (e : env) : request → server → response * server :=
  protected delete_webtoon_handler e.
End Webtoons.

(** ** The admission gate

    [rateLimit({ windowMs, max })] is configured in [server.js]; the
    counting itself is the package's. *)

Module limiter.
Definition windowMs : Z := 15 * 60 * 1000.
Definition max : nat := 100.

(** Modelled from the spec: the transition of express-rate-limit's
    per-origin counter (the package is not under src/), section 4.4:
    with no tracking entry, or once the window has elapsed since
    [windowStart], reset to [count = 1, windowStart = now] and admit;
    otherwise increment [count], and reject when it exceeds the ceiling. *)
Definition hit (origin : string) (now : Z) (hs : gmap string (nat * Z))
  : bool * gmap string (nat * Z) :=
  match hs !! origin with
  | None => (true, <[origin := (1%nat, now)]> hs)
  | Some (count, windowStart) =>
      if windowStart + windowMs <=? now
      then (true, <[origin := (1%nat, now)]> hs)
      else
        let count := S count in
        (negb (max <? count)%nat, <[origin := (count, windowStart)]> hs)
  end.

Definition TooManyRequests : response :=
  res_status_json 429 (TextBody "Too many requests, please try again later.").
End limiter.


(** ** The application *)

Inductive route : Type :=
  | POST_register (u p : string)
  | POST_login (u p : string)
  | GET_webtoons
  | GET_webtoons_id
  | POST_webtoons
  | DELETE_webtoons_id.

(** What the scheduler runs: a request from arrival to response, or the
    second half of a registration that was suspended at its [await]
    while other requests ran. *)
Inductive event : Type :=
  | Request (r : route) (e : env) (req : request)
  | RegisterResume (e : env) (u p : string).

Section App.
Context {J : Jws} {B : Bcrypt} {M : Mongoose}.

Definition router (r : route) (e : env) (req : request) (σ : server) : response * server :=
  match r with
  | POST_register u p => register e u p σ
  | POST_login u p => login e u p σ
  | GET_webtoons => get_webtoons σ
  | GET_webtoons_id => get_webtoon req σ
  | POST_webtoons => post_webtoons e req σ
  | DELETE_webtoons_id => delete_webtoon e req σ
  end.

(** The middleware stack in the order of the [app.use] calls:
    [express.json()], then [limiter], then the routes *)
Definition app (r : route) (e : env) (req : request) (σ : server) : response * server :=
  match express_json req with
  | Respond res => (res, σ)
  | Next req =>
      let '(admitted, hs) := limiter.hit (ip e) (now e) (hits σ) in
      let σ := set_hits σ hs in
      if admitted then router r e req σ else (limiter.TooManyRequests, σ)
  end.

Definition step (σ : server) (ev : event) : server :=
  match ev with
  | Request r e req => (app r e req σ).2
  | RegisterResume e u p => (register_resume e u p σ).2
  end.

Definition run (evs : list event) (σ : server) : server := fold_left step evs σ.
End App.




(** ** An executable instance of the interfaces *)

Module Reference.

(** A positive number written in binary, least significant digit first *)
Fixpoint digits (p : positive) : string :=
  match p with
  | xH => "1"
  | xO p => String "0" (digits p)
  | xI p => String "1" (digits p)
  end.

Fixpoint undigits (s : string) : option positive :=
  match s with
  | EmptyString => None
  | String a EmptyString => if Ascii.eqb a "1" then Some xH else None
  | String a s' =>
      if Ascii.eqb a "0" then xO <$> undigits s'
      else if Ascii.eqb a "1" then xI <$> undigits s'
      else None
  end.

Definition write `{Countable A} (a : A) : string := digits (encode a).
Definition read `{Countable A} (s : string) : option A := undigits s ≫= decode.

Definition header : string := "eyJhbGciOiJIUzI1NiIsInR5cCI6IkpXVCJ9".

Definition signature (k : string) (p : object) : string := write (k, p).

Definition sign (p : object) (k : string) : string :=
  header +:+ "." +:+ write p +:+ "." +:+ signature k p.

Definition payload_of (t : string) : option object :=
  match split_on "." t with
  | [_; b; _] => read b
  | _ => None
  end.

Definition verify (t k : string) : bool :=
  match split_on "." t with
  | [h; b; s] =>
      match read (A := object) b with
      | Some p => String.eqb h header && String.eqb s (signature k p)
      | None => false
      end
  | _ => false
  end.

#[export] Instance jws : Jws :=
  {| jws_sign := sign; jws_decode := payload_of; jws_verify := verify |}.

#[export] Instance bcrypt : Bcrypt := {|
  bcrypt_hash s rounds salt := write (salt, rounds, s);
  bcrypt_compare s hash :=
    match read (A := string * Z * string) hash with
    | Some (_, _, s') => String.eqb s s'
    | None => false
    end
|}.

Definition is_hex (a : ascii) : bool :=
  let n := nat_of_ascii a in
  ((48 <=? n) && (n <=? 57) || (97 <=? n) && (n <=? 102) || (65 <=? n) && (n <=? 70))%nat.

Fixpoint all_hex (s : string) : bool :=
  match s with
  | EmptyString => true
  | String a s' => is_hex a && all_hex s'
  end.

Definition quoted (s : string) : string :=
  String "034" (s +:+ String "034" EmptyString).

(** An [ObjectId] in its string form: 24 hexadecimal digits; the messages
    in the wording of mongoose. *)
#[export] Instance mongoose : Mongoose := {|
  castObjectId id :=
    if (String.length id =? 24)%nat && all_hex id then Some id else None;
  castErrorMessage id :=
    "Cast to ObjectId failed for value " +:+ quoted id +:+ " (type string) at path "
    +:+ quoted "_id" +:+ " for model " +:+ quoted "Webtoon";
  validationErrorMessage paths :=
    "Webtoon validation failed: "
    +:+ String.concat ", "
          ((λ path, path +:+ ": Path `" +:+ path +:+ "` is required.") <$> paths);
  duplicateKeyMessage oid :=
    "E11000 duplicate key error collection: webtoonDB.webtoons index: _id_ dup key: { _id: ObjectId('"
    +:+ oid +:+ "') }"
|}.

End Reference.

(** ** Sample inputs, over the reference instance *)

Module Sample.
Import Reference.

Definition e0 : env := mkEnv 1500 "c2FsdA" "64b7f0c2a1d3e4f5a6b7c8d9" "203.0.113.7".
Definition e1 : env := mkEnv 2000 "cGVwcGVy" "64b7f0c2a1d3e4f5a6b7c8da" "203.0.113.7".
Definition e2 : env := mkEnv 5000 "c2FsdHk" "64b7f0c2a1d3e4f5a6b7c8db" "198.51.100.4".

(** The token a registration of user [a] at 1.5 s returns. *)
Definition token_a : string := jwt_sign {["username" := JStr "a"]} JWT_SECRET 1500.

(** A token signed with the secret whose payload only says when it
    becomes active. *)
Definition token_later : string := jws_sign {["nbf" := JNum 4000000000]} JWT_SECRET.

(** A token signed with the secret whose payload names nobody. *)
Definition token_anonymous : string := jws_sign {["role" := JStr "admin"]} JWT_SECRET.

Definition with_header (h : option string) : request := mkRequest h "" ∅ None.
Definition with_id (id : string) : request := mkRequest None id ∅ None.

Definition webtoon_body : object :=
  {["title" := JStr "X"; "description" := JStr "Y"]}.
End Sample.

(** ** Vocabulary of the further statements *)

(** [parts.join(sep)] for a one-character separator *)
Fixpoint join (sep : ascii) (parts : list string) : string :=
  match parts with
  | [] => EmptyString
  | [s] => s
  | s :: rest => s +:+ String sep (join sep rest)
  end.

(** The paths of [webtoonSchema] *)
Definition schema_path (k : string) : Prop :=
  k = "title" ∨ k = "description" ∨ k = "characters".

(** A stored document as [webtoonSchema] and [validateWebtoon] together
    admit it: [title] and [description] are strings that are not empty,
    [characters] is a string when it is there, the version key is [0],
    and there is nothing else. *)
Definition schema_doc (doc : object) : Prop :=
  required (doc !! "title") = true ∧
  required (doc !! "description") = true ∧
  (doc !! "characters" = None ∨ isString (doc !! "characters") = true) ∧
  doc !! "__v" = Some (JNum 0) ∧
  ∀ k, is_Some (doc !! k) → schema_path k ∨ k = "__v" ∨ k = "_id".

(** The document stored for a request body: the body's [title],
    [description] and [characters], the version key [0], and besides the
    [_id] nothing else, whatever else the body holds. *)
Definition stored_from (b doc : object) : Prop :=
  (∀ k, schema_path k → doc !! k = b !! k) ∧
  doc !! "__v" = Some (JNum 0) ∧
  ∀ k, ¬ schema_path k → k ≠ "__v" → k ≠ "_id" → doc !! k = None.

(** The event stores an identity named [u], or may do so. *)
Definition registers (u : string) (ev : event) : Prop :=
  match ev with
  | Request (POST_register u' _) _ _ => u' = u
  | RegisterResume _ u' _ => u' = u
  | _ => False
  end.

(** The event is a request handled from arrival to response. *)
Definition to_completion (ev : event) : Prop :=
  match ev with
  | Request _ _ _ => True
  | RegisterResume _ _ _ => False
  end.

(** The names in the credential store *)
Definition usernames (σ : server) : list string := username <$> users σ.

(** ** Further sample inputs *)

Module Scenario.
Import Reference.

Definition id0 : string := fresh_id Sample.e1.

Definition post_request : request :=
  mkRequest (Some ("Bearer " +:+ Sample.token_a)) ""
    {["title" := JStr "X"; "description" := JStr "Y"; "isAdmin" := JBool true]} None.

Definition delete_request : request :=
  mkRequest (Some ("Bearer " +:+ Sample.token_a)) id0 ∅ None.

(** The state after a webtoon was posted with the token of user [a]. *)
Definition posted : server := (post_webtoons Sample.e1 post_request initial).2.





End Scenario.

(** * Properties *)

(** ** Splitting strings *)

Section Split.
Variable c : ascii.

Lemma split_on_nonempty (s : string) : split_on c s ≠ [].
Proof.
  destruct s as [|a s]; simpl; [done|].
  destruct (Ascii.eqb a c); [done|].
  by destruct (split_on c s).
Qed.

Lemma contains_app (s t : string) :
  contains c (s +:+ t) = contains c s || contains c t.
Proof.
  induction s as [|a s IH]; simpl; [done|].
  by rewrite IH, orb_assoc.
Qed.

(** A string without the separator is a single part. *)
Lemma split_on_free (s : string) :
  contains c s = false → split_on c s = [s].
Proof.
  induction s as [|a s IH]; simpl; [done|].
  intros [Ha Hs]%orb_false_elim.
  by rewrite Ha, (IH Hs).
Qed.

(** The first occurrence of the separator ends the first part. *)
Lemma split_on_cut (s t : string) :
  contains c s = false →
  split_on c (s +:+ String c t) = s :: split_on c t.
Proof.
  induction s as [|a s IH]; simpl.
  - intros _. by rewrite Ascii.eqb_refl.
  - intros [Ha Hs]%orb_false_elim.
    by rewrite Ha, (IH Hs).
Qed.

End Split.

(** ** The reference instance satisfies the laws *)

Module ReferenceLaws.
Import Reference.

Lemma undigits_digits (p : positive) : undigits (digits p) = Some p.
Proof.
  induction p as [p IH|p IH|]; simpl; [| |done].
  - rewrite IH. by destruct p.
  - rewrite IH. by destruct p.
Qed.

Lemma read_write `{Countable A} (a : A) : read (write a) = Some a.
Proof.
  unfold read, write. rewrite undigits_digits. simpl. apply decode_encode.
Qed.

Lemma contains_digits (c : ascii) (p : positive) :
  Ascii.eqb "0" c = false → Ascii.eqb "1" c = false → contains c (digits p) = false.
Proof.
  intros H0 H1. induction p as [p IH|p IH|]; cbn [digits contains].
  - by rewrite H1, IH.
  - by rewrite H0, IH.
  - by rewrite H1.
Qed.

Lemma is_blank_digits (p : positive) : is_blank (digits p) = false.
Proof. by destruct p. Qed.

Lemma split_sign (p : object) (k : string) :
  split_on "." (sign p k) = [header; write p; signature k p].
Proof.
  change (sign p k)
    with (header +:+ String "." (write p +:+ String "." (signature k p))).
  rewrite split_on_cut by done.
  rewrite split_on_cut by (by apply contains_digits).
  rewrite split_on_free by (by apply contains_digits).
  done.
Qed.

Lemma sign_no_space (p : object) (k : string) : contains " " (sign p k) = false.
Proof.
  change (sign p k)
    with (header +:+ String "." (write p +:+ String "." (signature k p))).
  rewrite contains_app. cbn [contains]. rewrite contains_app. cbn [contains].
  unfold signature, write. by rewrite !contains_digits.
Qed.

#[export] Instance jws_laws : JwsLaws jws.
Proof.
  split; intros p k; cbn [jws_sign jws_decode jws_verify jws].
  - unfold payload_of. rewrite split_sign. apply read_write.
  - unfold verify. rewrite split_sign, read_write.
    by rewrite !String.eqb_refl.
  - unfold compact. rewrite split_sign, sign_no_space.
    unfold signature, write. by rewrite is_blank_digits.
Qed.

End ReferenceLaws.

Import Reference ReferenceLaws.

(** ** Token verification *)

Lemma compact_inv (t : string) :
  compact t = true →
  ∃ a b s, split_on "." t = [a; b; s] ∧ is_blank s = false ∧ contains " " t = false.
Proof.
  unfold compact. intros Hc.
  destruct (split_on "." t) as [|a [|b [|s [|? ?]]]]; try discriminate.
  apply andb_prop in Hc as [Hs%negb_true_iff Ht%negb_true_iff].
  by exists a, b, s.
Qed.

Section JwtFacts.
Context {J : Jws} {L : JwsLaws J}.

Lemma jws_sign_no_space (p : object) (k : string) :
  contains " " (jws_sign p k) = false.
Proof. by destruct (compact_inv _ (jws_sign_compact p k)) as (? & ? & ? & _ & _ & ?). Qed.

(** On a token the back end signed with the same secret, [jwt.verify]
    comes down to the two time checks. *)
Lemma jwt_verify_signed (p : object) (k : string) (now : Z) :
  jwt_verify (Some (jws_sign p k)) k now =
  if negb (active p now) then
    match p !! "nbf" with
    | Some (JNum _) => Throw (NotBeforeError "jwt not active")
    | _ => Throw (JsonWebTokenError "invalid nbf value")
    end
  else if negb (unexpired p now) then
    match p !! "exp" with
    | Some (JNum _) => Throw (TokenExpiredError "jwt expired")
    | _ => Throw (JsonWebTokenError "invalid exp value")
    end
  else Return p.
Proof.
  destruct (compact_inv _ (jws_sign_compact p k)) as (a & b & s & Hsplit & Hs & _).
  pose proof (jws_decode_sign p k) as Hdec.
  pose proof (jws_verify_sign p k) as Hver.
  destruct (jws_sign p k) as [|c t]; [done|].
  unfold jwt_verify. cbv beta match zeta.
  rewrite Hsplit, Hdec, Hver. simpl.
  rewrite Hs. simpl.
  unfold active, unexpired.
  destruct (p !! "nbf") as [[| |nbf|]|]; try done;
    [rewrite Z.gtb_ltb, Z.leb_antisym; destruct (_ <? _); simpl; [done|]|];
    (destruct (p !! "exp") as [[| |exp|]|]; try done;
     rewrite Z.geb_leb, Z.ltb_antisym; by destruct (_ <=? _)).
Qed.

Lemma jwt_verify_accepts (p : object) (k : string) (now : Z) :
  active p now = true → unexpired p now = true →
  jwt_verify (Some (jws_sign p k)) k now = Return p.
Proof. intros Ha Hu. by rewrite jwt_verify_signed, Ha, Hu. Qed.

(** The verdict on a token [jwt.sign] issued at [T], at any later or
    earlier clock reading [t]. *)
Lemma jwt_verify_issued (payload : object) (k : string) (T t : Z) :
  payload !! "nbf" = None →
  jwt_verify (Some (jwt_sign payload k T)) k t =
  if t / 1000 <? T / 1000 + 3600
  then Return (<["exp" := JNum (T / 1000 + 3600)]> (<["iat" := JNum (T / 1000)]> payload))
  else Throw (TokenExpiredError "jwt expired").
Proof.
  intros Hnbf. unfold jwt_sign. rewrite jwt_verify_signed.
  unfold active, unexpired.
  rewrite lookup_insert_ne, lookup_insert_ne, Hnbf by done.
  rewrite lookup_insert_eq. simpl.
  change (ms_1h / 1000) with 3600.
  by destruct (_ <? _).
Qed.
End JwtFacts.

(** ** The authentication middleware *)

Section AuthFacts.
Context {J : Jws}.

(** Every exception of the [try] block ends in the same response. *)
Lemma authenticateJWT_cases (req : request) (now : Z) :
  authenticateJWT req now =
  match header_Authorization req with
  | None => Respond InvalidToken
  | Some h =>
      match jwt_verify (split_on " " h !! 1%nat) JWT_SECRET now with
      | Return verified => Next (set_user req verified)
      | Throw _ => Respond InvalidToken
      end
  end.
Proof.
  unfold authenticateJWT. by destruct (header_Authorization req).
Qed.

Lemma authenticateJWT_malformed (req : request) (now : Z) :
  malformed (header_Authorization req) = true →
  authenticateJWT req now = Respond InvalidToken.
Proof.
  rewrite authenticateJWT_cases. unfold malformed.
  destruct (header_Authorization req) as [h|]; [|done].
  intros Hh%negb_true_iff. by rewrite (split_on_free _ _ Hh).
Qed.

(** The part in front of the first space plays no role. *)
Lemma authenticateJWT_scheme (scheme t : string) (req : request) (now : Z) :
  contains " " scheme = false → contains " " t = false →
  header_Authorization req = Some (scheme +:+ String " " t) →
  authenticateJWT req now =
  match jwt_verify (Some t) JWT_SECRET now with
  | Return verified => Next (set_user req verified)
  | Throw _ => Respond InvalidToken
  end.
Proof.
  intros Hs Ht Hh. rewrite authenticateJWT_cases, Hh.
  by rewrite (split_on_cut _ _ _ Hs), (split_on_free _ _ Ht).
Qed.

(** What follows a second space plays no role either. *)
Lemma authenticateJWT_trailing (scheme t rest : string) (req : request) (now : Z) :
  contains " " scheme = false → contains " " t = false →
  header_Authorization req = Some (scheme +:+ String " " (t +:+ String " " rest)) →
  authenticateJWT req now =
  match jwt_verify (Some t) JWT_SECRET now with
  | Return verified => Next (set_user req verified)
  | Throw _ => Respond InvalidToken
  end.
Proof.
  intros Hs Ht Hh. rewrite authenticateJWT_cases, Hh.
  rewrite (split_on_cut _ _ _ Hs), (split_on_cut _ _ _ Ht). simpl.
  by destruct (split_on " " rest).
Qed.
End AuthFacts.

Lemma authenticateJWT_accepts {J : Jws} {L : JwsLaws J}
    (scheme : string) (payload : object) (req : request) (now : Z) :
  contains " " scheme = false →
  header_Authorization req = Some (scheme +:+ " " +:+ jws_sign payload JWT_SECRET) →
  active payload now = true → unexpired payload now = true →
  authenticateJWT req now = Next (set_user req payload).
Proof.
  intros Hs Hh Ha Hu.
  rewrite (authenticateJWT_scheme scheme (jws_sign payload JWT_SECRET));
    [|done|apply jws_sign_no_space|done].
  by rewrite jwt_verify_accepts.
Qed.

(** ** The credential store *)

Lemma find_user_app (u : string) (us more : list user) (usr : user) :
  find_user u us = Some usr → find_user u (us ++ more) = Some usr.
Proof.
  unfold find_user. induction us as [|x us IH]; simpl; [done|].
  by destruct (String.eqb (username x) u).
Qed.

Lemma find_user_snoc (u : string) (us : list user) (usr : user) :
  find_user u us = None → username usr = u →
  find_user u (us ++ [usr]) = Some usr.
Proof.
  unfold find_user. intros Hnone <-.
  induction us as [|x us IH]; simpl in *.
  - by rewrite String.eqb_refl.
  - destruct (String.eqb (username x) (username usr)); [done|auto].
Qed.

Lemma find_user_username (u : string) (us : list user) (usr : user) :
  find_user u us = Some usr → username usr = u.
Proof.
  unfold find_user. intros [_ H]%find_some. by apply String.eqb_eq.
Qed.

Lemma find_user_None (u : string) (us : list user) :
  find_user u us = None ↔ u ∉ username <$> us.
Proof.
  unfold find_user. induction us as [|x us IH]; simpl.
  - split; [|done]. intros _. apply not_elem_of_nil.
  - rewrite not_elem_of_cons. destruct (String.eqb_spec (username x) u) as [Heq|Hne].
    + split; [done|]. by intros [? _].
    + rewrite IH. split; [|by intros [_ ?]]. intros ?. split; [congruence|done].
Qed.

Lemma find_user_prefix (u : string) (us us' : list user) (usr : user) :
  us `prefix_of` us' → find_user u us = Some usr → find_user u us' = Some usr.
Proof. intros [more ->]. apply find_user_app. Qed.

Section Steps.
Context {J : Jws} {B : Bcrypt} {M : Mongoose}.

Lemma register_resume_users (e : env) (u p : string) (σ : server) :
  users (register_resume e u p σ).2 = users σ ++ [mkUser u (bcrypt_hash p 10 (salt e))].
Proof. reflexivity. Qed.

Lemma register_users (e : env) (u p : string) (σ : server) :
  users σ `prefix_of` users (register e u p σ).2.
Proof.
  unfold register. destruct (find_user u (users σ)); simpl; [done|].
  by apply prefix_app_r.
Qed.

Lemma login_state (e : env) (u p : string) (σ : server) : (login e u p σ).2 = σ.
Proof.
  unfold login. destruct (find_user u (users σ)) as [usr|]; [|done].
  by destruct (bcrypt_compare p (password usr)).
Qed.

Lemma get_webtoon_state (req : request) (σ : server) : (get_webtoon req σ).2 = σ.
Proof.
  unfold get_webtoon. by destruct (findById _ _) as [[[? ?]|]|].
Qed.

Lemma post_webtoons_handler_users (e : env) (req : request) (σ : server) :
  users (post_webtoons_handler e req σ).2 = users σ.
Proof.
  unfold post_webtoons_handler.
  destruct (validateWebtoon _); [|done]. by destruct (save _ _ _) as [[? ?]|].
Qed.

Lemma delete_webtoon_handler_users (req : request) (σ : server) :
  users (delete_webtoon_handler req σ).2 = users σ.
Proof.
  unfold delete_webtoon_handler.
  by destruct (findByIdAndDelete _ _) as [[[?|] ?]|].
Qed.

Lemma protected_users handler (e : env) (req : request) (σ : server) :
  (∀ req σ, users (handler req σ).2 = users σ) →
  users (protected handler e req σ).2 = users σ.
Proof.
  intros Hh. unfold protected. by destruct (authenticateJWT req (now e)).
Qed.

Lemma router_users (r : route) (e : env) (req : request) (σ : server) :
  users σ `prefix_of` users (router r e req σ).2.
Proof.
  destruct r; simpl.
  - apply register_users.
  - by rewrite login_state.
  - done.
  - by rewrite get_webtoon_state.
  - unfold post_webtoons.
    by rewrite (protected_users _ _ _ _ (post_webtoons_handler_users e)).
  - unfold delete_webtoon.
    by rewrite (protected_users _ _ _ _ delete_webtoon_handler_users).
Qed.

(** The stages in front of the routes, one by one: the parser stops the
    request, or the limiter does, or the route runs with the counters
    updated. *)
Lemma app_cases (r : route) (e : env) (req : request) (σ : server) :
  (∃ code page, body_error req = Some (code, page) ∧
                app r e req σ = (mkResponse code (TextBody page), σ)) ∨
  (body_error req = None ∧
   (limiter.hit (ip e) (now e) (hits σ)).1 = false ∧
   app r e req σ
   = (limiter.TooManyRequests, set_hits σ (limiter.hit (ip e) (now e) (hits σ)).2)) ∨
  (body_error req = None ∧
   (limiter.hit (ip e) (now e) (hits σ)).1 = true ∧
   app r e req σ
   = router r e req (set_hits σ (limiter.hit (ip e) (now e) (hits σ)).2)).
Proof.
  unfold app, express_json. destruct (body_error req) as [[code page]|].
  - left. by exists code, page.
  - right. destruct (limiter.hit _ _ _) as [[] hs]; simpl; [right|left]; done.
Qed.

(** No event takes an identity out of the store or rewrites one. *)
Lemma step_users (σ : server) (ev : event) :
  users σ `prefix_of` users (step σ ev).
Proof.
  destruct ev as [r e req|e u p]; simpl.
  - destruct (app_cases r e req σ)
      as [(code & page & _ & ->)|[(_ & _ & ->)|(_ & _ & ->)]]; [done..|].
    apply (router_users r e req (set_hits σ _)).
  - by apply prefix_app_r.
Qed.

Lemma run_users (evs : list event) (σ : server) :
  users σ `prefix_of` users (run evs σ).
Proof.
  revert σ. induction evs as [|ev evs IH]; intros σ; simpl; [done|].
  etrans; [apply (step_users σ ev)|apply IH].
Qed.

(** No route touches the limiter's counters. *)
Lemma protected_hits handler (e : env) (req : request) (σ : server) :
  (∀ req σ, hits (handler req σ).2 = hits σ) →
  hits (protected handler e req σ).2 = hits σ.
Proof.
  intros Hh. unfold protected. by destruct (authenticateJWT req (now e)).
Qed.

Lemma router_hits (r : route) (e : env) (req : request) (σ : server) :
  hits (router r e req σ).2 = hits σ.
Proof.
  destruct r as [u p|u p| | | |]; simpl.
  - unfold register. by destruct (find_user u (users σ)).
  - by rewrite login_state.
  - done.
  - by rewrite get_webtoon_state.
  - unfold post_webtoons. apply protected_hits. intros req1 σ1.
    unfold post_webtoons_handler.
    destruct (validateWebtoon _); [|done]. by destruct (save _ _ _) as [[? ?]|].
  - unfold delete_webtoon. apply protected_hits. intros req1 σ1.
    unfold delete_webtoon_handler.
    by destruct (findByIdAndDelete _ _) as [[[?|] ?]|].
Qed.
End Steps.

(** ** The admission gate *)




Section GateFacts.
Context {J : Jws} {B : Bcrypt} {M : Mongoose}.




End GateFacts.

(** ** The claims about the authentication middleware *)

(** C1, as the code has it: a request to a protected operation with no
    Authorization header, or with a header that has no space to split on,
    is rejected with status 400 and the body [{ error: 'Invalid token
    provided' }]; the protected handler does not run and the state is
    unchanged.  This is the one response of the middleware's [catch]: a
    request whose token fails verification gets the very same response. *)
Theorem C1_malformed_credential_rejected {J : Jws} (req : request) (e : env) :
  malformed (header_Authorization req) = true →
  authenticateJWT req (now e) = Respond InvalidToken ∧
  (∀ handler σ, protected handler e req σ = (InvalidToken, σ)) ∧
  (∀ (req' : request) (h : string) (now' : Z) (err : exn),
     header_Authorization req' = Some h →
     jwt_verify (split_on " " h !! 1%nat) JWT_SECRET now' = Throw err →
     authenticateJWT req' now' = authenticateJWT req (now e)).
Proof.
  intros Hm. pose proof (authenticateJWT_malformed req (now e) Hm) as Hrej.
  split; [done|split].
  - intros handler σ. unfold protected. by rewrite Hrej.
  - intros req' h now' err Hh Herr.
    by rewrite Hrej, authenticateJWT_cases, Hh, Herr.
Qed.

Lemma C1_malformed_credential_rejected_witness :
  malformed (header_Authorization (Sample.with_header (Some "Bearer"))) = true ∧
  authenticateJWT (J := Reference.jws) (Sample.with_header (Some "Bearer")) 1500
  = Respond InvalidToken.
Proof.
  split; [reflexivity|].
  apply (C1_malformed_credential_rejected (J := Reference.jws)
           (Sample.with_header (Some "Bearer")) Sample.e0).
  reflexivity.
Defined.

(** C1 as stated fails: the response to a request without a header is
    not distinct from the response to a request whose token fails
    verification. *)
Lemma C1_counterexample :
  malformed (header_Authorization (Sample.with_header None)) = true ∧
  malformed (header_Authorization (Sample.with_header (Some "Bearer not.a.token"))) = false ∧
  jwt_verify (J := Reference.jws) (Some "not.a.token") JWT_SECRET 1500
    = Throw (JsonWebTokenError "invalid token") ∧
  authenticateJWT (J := Reference.jws) (Sample.with_header None) 1500
    = authenticateJWT (J := Reference.jws) (Sample.with_header (Some "Bearer not.a.token")) 1500.
Proof. repeat split; vm_compute; reflexivity. Qed.

(** C2, as the code has it: the middleware takes the part after the
    first space and never looks at the scheme.  For every scheme string
    without a space, the outcome for the header [scheme token] is decided
    by [jwt.verify] on the token alone; so under any scheme, [Bearer] or
    not, a token signed with the secret, unexpired and active is accepted
    and its payload attached to the request. *)
Theorem C2_scheme_not_checked {J : Jws} {L : JwsLaws J} (scheme : string) (now : Z) :
  contains " " scheme = false →
  (∀ (t : string) (req : request),
     contains " " t = false →
     header_Authorization req = Some (scheme +:+ " " +:+ t) →
     authenticateJWT req now =
     match jwt_verify (Some t) JWT_SECRET now with
     | Return verified => Next (set_user req verified)
     | Throw _ => Respond InvalidToken
     end) ∧
  (∀ (payload : object) (req : request),
     header_Authorization req = Some (scheme +:+ " " +:+ jws_sign payload JWT_SECRET) →
     active payload now = true → unexpired payload now = true →
     authenticateJWT req now = Next (set_user req payload)).
Proof.
  intros Hs. split.
  - intros t req Ht Hh. by apply (authenticateJWT_scheme scheme t).
  - intros payload req Hh Ha Hu. by apply (authenticateJWT_accepts scheme).
Qed.

Lemma C2_scheme_not_checked_witness :
  contains " " "Basic" = false ∧
  authenticateJWT (J := Reference.jws)
    (Sample.with_header (Some ("Basic " +:+ Sample.token_anonymous))) 2000
  = Next (set_user (Sample.with_header (Some ("Basic " +:+ Sample.token_anonymous)))
            {["role" := JStr "admin"]}).
Proof.
  split; [reflexivity|].
  apply (proj2 (C2_scheme_not_checked (L := ReferenceLaws.jws_laws) "Basic" 2000 eq_refl));
    reflexivity.
Defined.

(** C2 as stated fails: a header whose scheme is spelled [bearer], in
    lower case, followed by a token the service issued and that has not
    expired, is accepted. *)
Lemma C2_counterexample :
  split_on " " ("bearer " +:+ Sample.token_a) !! 0%nat = Some "bearer" ∧
  "bearer" ≠ "Bearer" ∧
  returns (jwt_verify (Some Sample.token_a) JWT_SECRET 2000) = true ∧
  rejection (authenticateJWT
               (Sample.with_header (Some ("bearer " +:+ Sample.token_a))) 2000) = None.
Proof. repeat split; try discriminate; vm_compute; reflexivity. Qed.

(** ** The claim about fetching a resource *)

(** C3, as the code has it: when no resource with the requested id
    exists, [GET /webtoons/:id] answers 404 [Webtoon not found] if the id
    has the shape the store's id type accepts; for an id of any other
    shape the lookup throws and the answer is 500 with the message of the
    cast error.  The state is unchanged either way. *)
Theorem C3_get_absent {M : Mongoose} (req : request) (σ : server) :
  (∀ oid, castObjectId (params_id req) = Some oid → webtoons σ !! oid = None) →
  get_webtoon req σ =
  match castObjectId (params_id req) with
  | Some _ => (res_status_json 404 (ErrorBody "Webtoon not found"), σ)
  | None => (res_status_json 500 (ErrorBody (castErrorMessage (params_id req))), σ)
  end.
Proof.
  intros Habsent. unfold get_webtoon, findById.
  destruct (castObjectId (params_id req)) as [oid|]; [|done].
  by rewrite (Habsent oid).
Qed.

Lemma C3_get_absent_witness :
  (∀ oid, castObjectId (Mongoose := Reference.mongoose)
            (params_id (Sample.with_id "64b7f0c2a1d3e4f5a6b7c8d9")) = Some oid →
          webtoons initial !! oid = None) ∧
  get_webtoon (M := Reference.mongoose) (Sample.with_id "64b7f0c2a1d3e4f5a6b7c8d9") initial
  = (res_status_json 404 (ErrorBody "Webtoon not found"), initial).
Proof.
  split; [intros oid _; apply lookup_empty|].
  apply (C3_get_absent (M := Reference.mongoose)
           (Sample.with_id "64b7f0c2a1d3e4f5a6b7c8d9") initial).
  intros oid _. apply lookup_empty.
Defined.

(** C3 as stated fails: the store is empty, so no resource has the id
    [abc], and the answer has status 500, not 404. *)
Lemma C3_counterexample :
  webtoons initial = ∅ ∧
  castObjectId (Mongoose := Reference.mongoose) "abc" = None ∧
  status (get_webtoon (M := Reference.mongoose) (Sample.with_id "abc") initial).1 = 500 ∧
  status (get_webtoon (M := Reference.mongoose) (Sample.with_id "abc") initial).1 ≠ 404.
Proof. repeat split; vm_compute; congruence. Qed.

(** ** The claims about registration and login *)

Section AccountFacts.
Context {J : Jws} {B : Bcrypt} {M : Mongoose}.

(** What a successful registration leaves in the store stays the first
    identity of that name, whatever runs afterwards. *)
Lemma registered_stays (e : env) (u p : string) (σ : server) (evs : list event) :
  find_user u (users σ) = None →
  find_user u (users (run evs (register e u p σ).2))
  = Some (mkUser u (bcrypt_hash p 10 (salt e))).
Proof.
  intros Hnew. eapply find_user_prefix; [apply run_users|].
  unfold register. rewrite Hnew, register_resume_users.
  by apply find_user_snoc.
Qed.

(** The check and the push of [POST /register] are separated by an
    [await]: a registration whose check ran before another one stored the
    same name still pushes its identity, and the store then holds two
    identities of that name. *)
Lemma register_resumed_twice (e e' : env) (u p p' : string) (σ : server) :
  find_user u (users σ) = None →
  users (step (register e u p σ).2 (RegisterResume e' u p'))
  = users σ ++ [mkUser u (bcrypt_hash p 10 (salt e)); mkUser u (bcrypt_hash p' 10 (salt e'))].
Proof.
  intros Hnew. unfold register. rewrite Hnew. simpl.
  by rewrite <- app_assoc.
Qed.
End AccountFacts.

(** C4: when no identity in the store is named [U], [register(U, P)]
    succeeds with status 200 and a token and stores the identity; from
    then on, after any further events, every [register(U, P2)] answers
    400 [User already exists], a body without a token, and leaves the
    whole state, the credential store included, as it was. *)
Theorem C4_register_once {J : Jws} {B : Bcrypt} {M : Mongoose}
    (e : env) (u p : string) (σ : server) :
  u ∉ usernames σ →
  register e u p σ
  = (res_json (TokenBody "User registered successfully"
                 (jwt_sign {["username" := JStr u]} JWT_SECRET (now e))),
     set_users σ (users σ ++ [mkUser u (bcrypt_hash p 10 (salt e))])) ∧
  ∀ (evs : list event) (e' : env) (p2 : string),
    register e' u p2 (run evs (register e u p σ).2)
    = (res_status_json 400 (ErrorBody "User already exists"),
       run evs (register e u p σ).2).
Proof.
  intros Hnew%find_user_None. split.
  - unfold register. by rewrite Hnew.
  - intros evs e' p2. unfold register at 1.
    by rewrite (registered_stays e u p σ evs Hnew).
Qed.

Lemma C4_register_once_witness :
  ("a" ∉ usernames (register Sample.e2 "b" "r" initial).2) ∧
  register (J := Reference.jws) (B := Reference.bcrypt) Sample.e1 "a" "p2"
    (run (M := Reference.mongoose) [Request (POST_login "a" "p") Sample.e1 (Sample.with_header None)]
       (register Sample.e0 "a" "p" (register Sample.e2 "b" "r" initial).2).2)
  = (res_status_json 400 (ErrorBody "User already exists"),
     run (M := Reference.mongoose) [Request (POST_login "a" "p") Sample.e1 (Sample.with_header None)]
       (register Sample.e0 "a" "p" (register Sample.e2 "b" "r" initial).2).2).
Proof.
  assert (Hnew : "a" ∉ usernames (register Sample.e2 "b" "r" initial).2).
  { intros [Hab|[]%elem_of_nil]%elem_of_cons. discriminate Hab. }
  split; [exact Hnew|].
  apply (C4_register_once (J := Reference.jws) (B := Reference.bcrypt)
           (M := Reference.mongoose) Sample.e0 "a" "p"
           (register Sample.e2 "b" "r" initial).2 Hnew).
Defined.




(** C8: with the same username and password, the response of [login]
    when the user is not in the store and the response when the user is
    there but the password does not match the stored hash are one and the
    same: status 400, body [{ error: 'Invalid credentials' }]. *)
Theorem C8_login_failures_alike {J : Jws} {B : Bcrypt}
    (e e' : env) (u p : string) (σ σ' : server) (usr : user) :
  find_user u (users σ) = None →
  find_user u (users σ') = Some usr →
  bcrypt_compare p (password usr) = false →
  (login e u p σ).1 = (login e' u p σ').1 ∧
  (login e u p σ).1 = res_status_json 400 (ErrorBody "Invalid credentials").
Proof.
  intros Habsent Hpresent Hwrong. unfold login.
  by rewrite Habsent, Hpresent, Hwrong.
Qed.

Lemma C8_login_failures_alike_witness :
  find_user "a" (users initial) = None ∧
  (login (J := Reference.jws) (B := Reference.bcrypt) Sample.e1 "a" "q" initial).1
  = (login (J := Reference.jws) (B := Reference.bcrypt) Sample.e2 "a" "q"
       (register Sample.e0 "a" "p" initial).2).1.
Proof.
  split; [reflexivity|].
  apply (C8_login_failures_alike (J := Reference.jws) (B := Reference.bcrypt)
           Sample.e1 Sample.e2 "a" "q" initial (register Sample.e0 "a" "p" initial).2
           (mkUser "a" (bcrypt_hash "p" 10 "c2FsdA")));
    vm_compute; reflexivity.
Defined.

(** C10: the credential store only grows at its end.  Whatever events
    run, the store before is a prefix of the store after, so every name in
    it stays in it; and once [register(U, P)] has succeeded, looking [U]
    up keeps giving the identity stored then, with the same hash. *)
Theorem C10_store_append_only {J : Jws} {B : Bcrypt} {M : Mongoose}
    (e : env) (u p : string) (σ : server) (evs : list event) :
  find_user u (users σ) = None →
  (∀ σ0 evs0, users σ0 `prefix_of` users (run evs0 σ0)) ∧
  (∀ σ0 evs0 v, v ∈ username <$> users σ0 → v ∈ username <$> users (run evs0 σ0)) ∧
  find_user u (users (run evs (register e u p σ).2))
  = Some (mkUser u (bcrypt_hash p 10 (salt e))).
Proof.
  intros Hnew. split; [|split].
  - intros σ0 evs0. apply run_users.
  - intros σ0 evs0 v Hv. destruct (run_users evs0 σ0) as [more ->].
    rewrite fmap_app. apply elem_of_app. by left.
  - by apply registered_stays.
Qed.

Lemma C10_store_append_only_witness :
  find_user "a" (users initial) = None ∧
  find_user "a"
    (users (run (J := Reference.jws) (B := Reference.bcrypt) (M := Reference.mongoose)
              [RegisterResume Sample.e1 "a" "q";
               Request DELETE_webtoons_id Sample.e2 (Sample.with_id "abc")]
              (register Sample.e0 "a" "p" initial).2))
  = Some (mkUser "a" (bcrypt_hash "p" 10 "c2FsdA")).
Proof.
  split; [reflexivity|].
  apply (C10_store_append_only (J := Reference.jws) (B := Reference.bcrypt)
           (M := Reference.mongoose) Sample.e0 "a" "p" initial).
  reflexivity.
Defined.

(** ** The claims about tokens *)

(** C6, as the code has it: the expiry is counted in whole seconds.  A
    token issued at [T] milliseconds carries [exp = floor(T / 1000) + 3600]
    and is accepted exactly at the times [t] with [floor(t / 1000) < exp].
    So it is accepted at every time of [[T, T + 1h - 1s]], rejected as
    expired at every time from [T + 1h] on, and accepted on the whole of
    [[T, T + 1h)] when [T] falls on a whole second. *)
Theorem C6_token_lifetime {J : Jws} {L : JwsLaws J} (u : string) (T t : Z) :
  jwt_verify (Some (jwt_sign {["username" := JStr u]} JWT_SECRET T)) JWT_SECRET t
  = (if t / 1000 <? T / 1000 + 3600
     then Return (<["exp" := JNum (T / 1000 + 3600)]>
                    (<["iat" := JNum (T / 1000)]> {["username" := JStr u]}))
     else Throw (TokenExpiredError "jwt expired")) ∧
  (T ≤ t ≤ T + ms_1h - 1000 →
   returns (jwt_verify (Some (jwt_sign {["username" := JStr u]} JWT_SECRET T)) JWT_SECRET t)
   = true) ∧
  (T + ms_1h ≤ t →
   jwt_verify (Some (jwt_sign {["username" := JStr u]} JWT_SECRET T)) JWT_SECRET t
   = Throw (TokenExpiredError "jwt expired")) ∧
  (T mod 1000 = 0 → T ≤ t < T + ms_1h →
   returns (jwt_verify (Some (jwt_sign {["username" := JStr u]} JWT_SECRET T)) JWT_SECRET t)
   = true).
Proof.
  unfold ms_1h. rewrite jwt_verify_issued by done. split; [done|].
  destruct (Z.ltb_spec (t / 1000) (T / 1000 + 3600)) as [Hlt|Hge]; simpl.
  - split; [done|]. split; [|done].
    intros Ht. exfalso. Z.div_mod_to_equations. lia.
  - split; [|split; [done|]].
    + intros Ht. exfalso. Z.div_mod_to_equations. lia.
    + intros HT Ht. exfalso. Z.div_mod_to_equations. lia.
Qed.

Lemma C6_token_lifetime_witness :
  returns (jwt_verify (Some Sample.token_a) JWT_SECRET 3600500) = true.
Proof.
  apply (proj1 (proj2 (C6_token_lifetime (L := jws_laws) "a" 1500 3600500))).
  unfold ms_1h. lia.
Defined.

(** C6 as stated fails: a token issued at 1.5 s is rejected at 3601.0 s,
    half a second before the hour is over. *)
Lemma C6_counterexample :
  1500 ≤ 3601000 < 1500 + ms_1h ∧
  jwt_verify (Some (jwt_sign {["username" := JStr "a"]} JWT_SECRET 1500)) JWT_SECRET 3601000
  = Throw (TokenExpiredError "jwt expired").
Proof. split; [unfold ms_1h; lia|]. vm_compute. reflexivity. Qed.

(** C9, as the code has it: the middleware accepts every token that is
    signed with the process-wide secret, unexpired and, when its payload
    has a not-before time, active; nothing else in the payload is looked
    at.  A payload with no [username] passes, is attached to the request
    as it is, and the protected handler runs on that request. *)
Theorem C9_any_payload_accepted {J : Jws} {L : JwsLaws J}
    (payload : object) (req : request) (e : env) :
  header_Authorization req = Some ("Bearer " +:+ jws_sign payload JWT_SECRET) →
  unexpired payload (now e) = true →
  active payload (now e) = true →
  authenticateJWT req (now e) = Next (set_user req payload) ∧
  ∀ handler σ, protected handler e req σ = handler (set_user req payload) σ.
Proof.
  intros Hh Hu Ha.
  assert (Hnext : authenticateJWT req (now e) = Next (set_user req payload)).
  { by apply (authenticateJWT_accepts "Bearer"). }
  split; [done|].
  intros handler σ. unfold protected. by rewrite Hnext.
Qed.

Lemma C9_any_payload_accepted_witness :
  unexpired ({["role" := JStr "admin"]} : object) 2000 = true ∧
  active ({["role" := JStr "admin"]} : object) 2000 = true ∧
  ({["role" := JStr "admin"]} : object) !! "username" = None ∧
  status (post_webtoons Sample.e1
            (mkRequest (Some ("Bearer " +:+ Sample.token_anonymous)) "" Sample.webtoon_body None)
            initial).1 = 201.
Proof.
  split; [reflexivity|split; [reflexivity|split; [reflexivity|]]].
  unfold post_webtoons.
  rewrite (proj2 (C9_any_payload_accepted (L := jws_laws) {["role" := JStr "admin"]}
                    (mkRequest (Some ("Bearer " +:+ Sample.token_anonymous)) ""
                       Sample.webtoon_body None)
                    Sample.e1 eq_refl eq_refl eq_refl)).
  vm_compute. reflexivity.
Defined.

(** C9 as stated fails: a token signed with the secret, with no expiry
    at all, whose payload says it becomes active in the future, is
    rejected. *)
Lemma C9_counterexample :
  jws_verify Sample.token_later JWT_SECRET = true ∧
  jws_decode Sample.token_later = Some {["nbf" := JNum 4000000000]} ∧
  unexpired {["nbf" := JNum 4000000000]} 2000 = true ∧
  authenticateJWT (Sample.with_header (Some ("Bearer " +:+ Sample.token_later))) 2000
  = Respond InvalidToken.
Proof. repeat split; vm_compute; reflexivity. Qed.

(** ** The claim about the admission gate *)




(** * Further properties of the code *)

(** ** How the credential header is cut *)

(** X1: [split] loses nothing: joining the parts with the separator gives
    the string back, no part contains the separator, and there is always
    a first part, so index [0] of [token.split(' ')] is never undefined
    while index [1] is undefined exactly for a header without a space. *)
Theorem X1_split_join (c : ascii) (s : string) :
  join c (split_on c s) = s ∧
  Forall (λ part, contains c part = false) (split_on c s) ∧
  is_Some (split_on c s !! 0%nat) ∧
  (split_on c s !! 1%nat = None ↔ contains c s = false).
Proof.
  induction s as [|a s (IHj & IHf & IH0 & IH1)].
  { split; [done|]. split; [by repeat constructor|]. split; [by eexists|done]. }
  cbn [split_on contains].
  destruct (split_on c s) as [|h t] eqn:Hs; [by destruct IH0|].
  destruct (Ascii.eqb a c) eqn:Hac.
  - apply Ascii.eqb_eq in Hac as ->.
    split; [|split; [|split]].
    + change (join c (EmptyString :: h :: t)) with (String c (join c (h :: t))).
      by rewrite IHj.
    + by constructor.
    + by eexists.
    + done.
  - apply Forall_cons in IHf as [Hh Ht].
    split; [|split; [|split]].
    + rewrite <- IHj. by destruct t.
    + constructor; [|done]. cbn [contains]. by rewrite Hac, Hh.
    + by eexists.
    + apply IH1.
Qed.

Section HeaderFacts.
Context {J : Jws}.

(** X2: a header that ends after the first space, or has a second space
    right after the first, is rejected whatever follows: part [1] is the
    empty string, which [jwt.verify] refuses before looking at anything
    else.  A valid token after two spaces does not help. *)
Theorem X2_blank_token_rejected (scheme rest : string) (req : request) (e : env) :
  contains " " scheme = false →
  header_Authorization req = Some (scheme +:+ " ") ∨
  header_Authorization req = Some (scheme +:+ "  " +:+ rest) →
  authenticateJWT req (now e) = Respond InvalidToken ∧
  ∀ handler σ, protected handler e req σ = (InvalidToken, σ).
Proof.
  intros Hs Hh.
  assert (Hrej : authenticateJWT req (now e) = Respond InvalidToken).
  { rewrite authenticateJWT_cases. destruct Hh as [-> | ->].
    - change (scheme +:+ " ") with (scheme +:+ String " " "").
      by rewrite (split_on_cut _ _ _ Hs).
    - change (scheme +:+ "  " +:+ rest) with (scheme +:+ String " " (String " " rest)).
      rewrite (split_on_cut _ _ _ Hs). by simpl. }
  split; [done|]. intros handler σ. unfold protected. by rewrite Hrej.
Qed.

(** X3: a token that does not consist of exactly three parts separated
    by dots is rejected before it is decoded or its signature checked. *)
Theorem X3_token_without_three_parts_rejected
    (scheme t : string) (req : request) (e : env) :
  contains " " scheme = false → contains " " t = false →
  header_Authorization req = Some (scheme +:+ " " +:+ t) →
  length (split_on "." t) ≠ 3%nat →
  authenticateJWT req (now e) = Respond InvalidToken ∧
  ∀ handler σ, protected handler e req σ = (InvalidToken, σ).
Proof.
  intros Hs Ht Hh Hparts.
  assert (Hrej : authenticateJWT req (now e) = Respond InvalidToken).
  { rewrite (authenticateJWT_scheme scheme t req (now e) Hs Ht Hh).
    unfold jwt_verify. destruct t as [|a t]; [done|].
    by rewrite (proj2 (Nat.eqb_neq _ _) Hparts). }
  split; [done|]. intros handler σ. unfold protected. by rewrite Hrej.
Qed.
End HeaderFacts.

Lemma X2_blank_token_rejected_witness :
  contains " " "Bearer" = false ∧
  authenticateJWT (Sample.with_header (Some ("Bearer  " +:+ Sample.token_a))) 2000
  = Respond InvalidToken.
Proof.
  split; [reflexivity|].
  apply (proj1 (X2_blank_token_rejected "Bearer" Sample.token_a
                  (Sample.with_header (Some ("Bearer  " +:+ Sample.token_a)))
                  Sample.e1 eq_refl (or_intror eq_refl))).
Defined.

Lemma X3_token_without_three_parts_rejected_witness :
  length (split_on "." "abc.def") ≠ 3%nat ∧
  authenticateJWT (Sample.with_header (Some "Bearer abc.def")) 2000 = Respond InvalidToken.
Proof.
  split; [discriminate|].
  apply (proj1 (X3_token_without_three_parts_rejected "Bearer" "abc.def"
                  (Sample.with_header (Some "Bearer abc.def")) Sample.e1
                  eq_refl eq_refl eq_refl ltac:(discriminate))).
Defined.

(** X4: what follows a second space is ignored.  Under any scheme, a
    header [scheme token rest] with a token that is signed with the
    secret, unexpired and active is accepted, whatever [rest] is. *)
Theorem X4_text_after_token_ignored {J : Jws} {L : JwsLaws J}
    (scheme rest : string) (payload : object) (req : request) (e : env) :
  contains " " scheme = false →
  header_Authorization req
  = Some (scheme +:+ " " +:+ jws_sign payload JWT_SECRET +:+ " " +:+ rest) →
  active payload (now e) = true → unexpired payload (now e) = true →
  authenticateJWT req (now e) = Next (set_user req payload) ∧
  ∀ handler σ, protected handler e req σ = handler (set_user req payload) σ.
Proof.
  intros Hs Hh Ha Hu.
  assert (Hnext : authenticateJWT req (now e) = Next (set_user req payload)).
  { rewrite (authenticateJWT_trailing scheme (jws_sign payload JWT_SECRET) rest);
      [|done|apply jws_sign_no_space|done].
    by rewrite jwt_verify_accepts. }
  split; [done|]. intros handler σ. unfold protected. by rewrite Hnext.
Qed.

Lemma X4_text_after_token_ignored_witness :
  contains " " "Bearer" = false ∧
  authenticateJWT
    (Sample.with_header (Some ("Bearer " +:+ Sample.token_anonymous +:+ " and more"))) 2000
  = Next (set_user
            (Sample.with_header (Some ("Bearer " +:+ Sample.token_anonymous +:+ " and more")))
            {["role" := JStr "admin"]}).
Proof.
  split; [reflexivity|].
  apply (proj1 (X4_text_after_token_ignored (L := jws_laws) "Bearer" "and more"
                  {["role" := JStr "admin"]}
                  (Sample.with_header (Some ("Bearer " +:+ Sample.token_anonymous +:+ " and more")))
                  Sample.e1 eq_refl eq_refl eq_refl eq_refl)).
Defined.

(** ** Identities and the tokens issued for them *)

Section StoreFacts.
Context {J : Jws} {B : Bcrypt} {M : Mongoose}.

(** A route leaves the credential store alone, unless it is a
    registration of a name that is not there yet. *)
Lemma router_users_cases (r : route) (e : env) (req : request) (σ : server) :
  users (router r e req σ).2 = users σ ∨
  ∃ u p, r = POST_register u p ∧ find_user u (users σ) = None ∧
         status (router r e req σ).1 = 200 ∧
         users (router r e req σ).2 = users σ ++ [mkUser u (bcrypt_hash p 10 (salt e))].
Proof.
  destruct r as [u p|u p| | | |]; simpl.
  - unfold register. destruct (find_user u (users σ)) eqn:Hu; [by left|].
    right. by exists u, p.
  - left. by rewrite login_state.
  - by left.
  - left. by rewrite get_webtoon_state.
  - left. unfold post_webtoons.
    by rewrite (protected_users _ _ _ _ (post_webtoons_handler_users e)).
  - left. unfold delete_webtoon.
    by rewrite (protected_users _ _ _ _ delete_webtoon_handler_users).
Qed.

Lemma app_users_cases (r : route) (e : env) (req : request) (σ : server) :
  users (app r e req σ).2 = users σ ∨
  ∃ u p, r = POST_register u p ∧ find_user u (users σ) = None ∧
         status (app r e req σ).1 = 200 ∧
         users (app r e req σ).2 = users σ ++ [mkUser u (bcrypt_hash p 10 (salt e))].
Proof.
  destruct (app_cases r e req σ)
    as [(code & page & _ & ->)|[(_ & _ & ->)|(_ & _ & ->)]]; [by left..|].
  apply (router_users_cases r e req (set_hits σ _)).
Qed.
End StoreFacts.

(** X5: the token that a registration or a login returns opens the
    protected routes.  Sent as [Bearer token], it makes the middleware
    attach a payload whose [username] is the user's and run the handler,
    at every time whose whole second is before the expiry; from then on
    the answer is 400 [Invalid token provided] and the handler does not
    run. *)
Theorem X5_issued_token_opens_protected_routes {J : Jws} {B : Bcrypt} {L : JwsLaws J}
    (e : env) (u p : string) (σ : server) (msg token : string)
    (req : request) (e' : env) :
  (register e u p σ).1 = res_json (TokenBody msg token) ∨
  (login e u p σ).1 = res_json (TokenBody msg token) →
  header_Authorization req = Some ("Bearer " +:+ token) →
  ∃ payload,
    payload !! "username" = Some (JStr u) ∧
    ∀ handler σ',
      protected handler e' req σ' =
      if now e' / 1000 <? now e / 1000 + 3600
      then handler (set_user req payload) σ'
      else (InvalidToken, σ').
Proof.
  intros Hissued Hh.
  assert (Htoken : token = jwt_sign {["username" := JStr u]} JWT_SECRET (now e)).
  { destruct Hissued as [Hr|Hl].
    - unfold register in Hr. destruct (find_user u (users σ)); [discriminate|].
      by injection Hr as _ <-.
    - unfold login in Hl. destruct (find_user u (users σ)) as [usr|] eqn:Hu; [|discriminate].
      destruct (bcrypt_compare p (password usr)); [|discriminate].
      rewrite (find_user_username _ _ _ Hu) in Hl. by injection Hl as _ <-. }
  subst token.
  exists (<["exp" := JNum (now e / 1000 + 3600)]>
            (<["iat" := JNum (now e / 1000)]> {["username" := JStr u]})).
  split.
  - by rewrite lookup_insert_ne, lookup_insert_ne, lookup_singleton_eq.
  - intros handler σ'. unfold protected.
    assert (Hns : contains " " (jwt_sign {["username" := JStr u]} JWT_SECRET (now e)) = false)
      by apply jws_sign_no_space.
    rewrite (authenticateJWT_scheme "Bearer" _ req (now e') eq_refl Hns Hh).
    rewrite jwt_verify_issued by done.
    by destruct (_ <? _).
Qed.

Lemma X5_issued_token_opens_protected_routes_witness :
  (register Sample.e0 "a" "p" initial).1
  = res_json (TokenBody "User registered successfully" Sample.token_a) ∧
  ∃ payload,
    payload !! "username" = Some (JStr "a") ∧
    ∀ handler σ',
      protected handler Sample.e1
        (Sample.with_header (Some ("Bearer " +:+ Sample.token_a))) σ' =
      if 2000 / 1000 <? 1500 / 1000 + 3600
      then handler (set_user (Sample.with_header (Some ("Bearer " +:+ Sample.token_a))) payload) σ'
      else (InvalidToken, σ').
Proof.
  split; [reflexivity|].
  apply (X5_issued_token_opens_protected_routes (L := jws_laws) Sample.e0 "a" "p" initial
           "User registered successfully" Sample.token_a
           (Sample.with_header (Some ("Bearer " +:+ Sample.token_a))) Sample.e1
           (or_introl eq_refl) eq_refl).
Defined.

(** X6: as long as every request is handled from arrival to response,
    no two identities in the store have the same name. *)
Theorem X6_usernames_stay_unique {J : Jws} {B : Bcrypt} {M : Mongoose}
    (evs : list event) (σ : server) :
  Forall to_completion evs →
  NoDup (usernames σ) →
  NoDup (usernames (run evs σ)).
Proof.
  revert σ. induction evs as [|ev evs IH]; intros σ Hevs Hσ; [done|].
  apply Forall_cons in Hevs as [Hev Hevs]. simpl. apply IH; [done|].
  destruct ev as [r e req|]; [|done]. simpl. unfold usernames in *.
  destruct (app_users_cases r e req σ) as [->|(u & p & _ & Hnew & _ & ->)]; [done|].
  rewrite fmap_app. apply NoDup_app. split; [done|]. split.
  - intros x Hx [->|[]%elem_of_nil]%elem_of_cons. by apply find_user_None in Hnew.
  - apply NoDup_singleton.
Qed.

Lemma X6_usernames_stay_unique_witness :
  NoDup (usernames initial) ∧
  NoDup (usernames
           (run [Request (POST_register "a" "p") Sample.e0 (Sample.with_header None);
                 Request (POST_register "a" "q") Sample.e1 (Sample.with_header None);
                 Request (POST_register "b" "q") Sample.e2 (Sample.with_header None)]
              initial)).
Proof.
  split; [apply NoDup_nil_2|].
  apply (X6_usernames_stay_unique (J := jws) (B := bcrypt) (M := mongoose)).
  - repeat constructor.
  - apply NoDup_nil_2.
Defined.

(** X7: identities come from registrations only.  When no event
    registers [U] and [U] is not in the store, [U] is still not there
    afterwards, and every login as [U] answers 400 [Invalid credentials]. *)
Theorem X7_no_login_without_registration {J : Jws} {B : Bcrypt} {M : Mongoose}
    (u : string) (evs : list event) (σ : server) :
  Forall (λ ev, ¬ registers u ev) evs →
  find_user u (users σ) = None →
  find_user u (users (run evs σ)) = None ∧
  ∀ e p, login e u p (run evs σ)
         = (res_status_json 400 (ErrorBody "Invalid credentials"), run evs σ).
Proof.
  intros Hevs Hσ.
  assert (Hnone : find_user u (users (run evs σ)) = None).
  { revert σ Hσ. induction evs as [|ev evs IH]; intros σ Hσ; [done|].
    apply Forall_cons in Hevs as [Hev Hevs]. simpl. apply IH; [done|].
    apply find_user_None. apply find_user_None in Hσ.
    destruct ev as [r e req|e u' p']; simpl in *.
    - destruct (app_users_cases r e req σ) as [->|(u' & p' & -> & _ & _ & ->)]; [done|].
      rewrite fmap_app. apply not_elem_of_app. split; [done|].
      simpl. rewrite list_elem_of_singleton. congruence.
    - rewrite fmap_app. apply not_elem_of_app. split; [done|].
      simpl. rewrite list_elem_of_singleton. congruence. }
  split; [done|]. intros e p. unfold login. by rewrite Hnone.
Qed.

Lemma X7_no_login_without_registration_witness :
  find_user "b" (users initial) = None ∧
  login Sample.e2 "b" "p"
    (run [Request (POST_register "a" "p") Sample.e0 (Sample.with_header None);
          RegisterResume Sample.e1 "a" "q"] initial)
  = (res_status_json 400 (ErrorBody "Invalid credentials"),
     run [Request (POST_register "a" "p") Sample.e0 (Sample.with_header None);
          RegisterResume Sample.e1 "a" "q"] initial).
Proof.
  split; [reflexivity|].
  apply (X7_no_login_without_registration (J := jws) (B := bcrypt) (M := mongoose) "b").
  - repeat constructor; simpl; discriminate.
  - reflexivity.
Defined.

(** X8: a request changes the credential store only if it is a
    [POST /register] of a name that is not there, answered with 200; it
    then adds exactly one identity, at the end, with that name and the
    hash of the password.  Logins, resource routes, rejected credentials
    and throttled requests leave the store as it is. *)
Theorem X8_store_changes_only_by_registration {J : Jws} {B : Bcrypt} {M : Mongoose}
    (r : route) (e : env) (req : request) (σ : server) :
  users (app r e req σ).2 ≠ users σ →
  ∃ u p, r = POST_register u p ∧ find_user u (users σ) = None ∧
         status (app r e req σ).1 = 200 ∧
         users (app r e req σ).2 = users σ ++ [mkUser u (bcrypt_hash p 10 (salt e))].
Proof.
  intros Hchanged. by destruct (app_users_cases r e req σ) as [?|?].
Qed.

Lemma X8_store_changes_only_by_registration_witness :
  users (app (POST_register "a" "p") Sample.e0 (Sample.with_header None) initial).2
  ≠ users initial ∧
  ∃ u p, POST_register "a" "p" = POST_register u p ∧
         find_user u (users initial) = None ∧
         status (app (POST_register "a" "p") Sample.e0 (Sample.with_header None) initial).1 = 200 ∧
         users (app (POST_register "a" "p") Sample.e0 (Sample.with_header None) initial).2
         = users initial ++ [mkUser u (bcrypt_hash p 10 (salt Sample.e0))].
Proof.
  split; [discriminate|].
  apply (X8_store_changes_only_by_registration (J := jws) (B := bcrypt) (M := mongoose)).
  discriminate.
Defined.

(** ** The resource collection *)

Lemma pick_path (b : object) (k : string) : schema_path k → pick b !! k = b !! k.
Proof.
  intros Hk. unfold pick. destruct (b !! k) as [v|] eqn:Hb.
  - by apply map_lookup_filter_Some.
  - apply map_lookup_filter_None. left. done.
Qed.

Lemma pick_other (b : object) (k : string) : ¬ schema_path k → pick b !! k = None.
Proof.
  intros Hk. unfold pick. apply map_lookup_filter_None. right. intros v _. exact Hk.
Qed.

Lemma pick_is_Some (b : object) (k : string) : is_Some (pick b !! k) → schema_path k.
Proof.
  intros [v Hv]. unfold pick in Hv. by apply map_lookup_filter_Some in Hv as [_ ?].
Qed.

Lemma required_isString (v : option json) : required v = true → isString v = true.
Proof. by destruct v as [[]|]. Qed.

(** The validators pass exactly on a body whose [title] and [description]
    are strings and whose [characters], when there, is a string. *)
Lemma validateWebtoon_nil (b : object) :
  validateWebtoon b = [] ↔
  isString (b !! "title") = true ∧ isString (b !! "description") = true ∧
  (b !! "characters" = None ∨ isString (b !! "characters") = true).
Proof.
  unfold validateWebtoon.
  destruct (isString (b !! "title")), (isString (b !! "description")),
    (b !! "characters") as [[]|]; simpl;
    (split; [intros Hnil|intros (Ht & Hd & [Hc|Hc])]);
    try discriminate; auto.
Qed.

Lemma failing_paths_nil (doc : object) :
  failing_paths doc = [] ↔
  required (doc !! "title") = true ∧ required (doc !! "description") = true.
Proof.
  unfold failing_paths.
  destruct (required (doc !! "title")), (required (doc !! "description")); simpl;
    (split; [intros Hnil|intros [Ht Hd]]); try discriminate; auto.
Qed.

(** The document [save] inserts: the picked fields and the version key. *)
Lemma saved_path (b : object) (k : string) :
  schema_path k → (<["__v" := JNum 0]> (pick b) : object) !! k = b !! k.
Proof.
  intros Hk. rewrite lookup_insert_ne; [by apply pick_path|].
  intros <-. destruct Hk as [?|[?|?]]; discriminate.
Qed.

Lemma saved_other (b : object) (k : string) :
  ¬ schema_path k → k ≠ "__v" → (<["__v" := JNum 0]> (pick b) : object) !! k = None.
Proof.
  intros Hk Hv. rewrite lookup_insert_ne by done. by apply pick_other.
Qed.

Section HandlerFacts.
Context {M : Mongoose}.

(** What the handler of [POST /webtoons] does, by the body and the id the
    new document is given. *)
Lemma post_webtoons_handler_cases (e : env) (req : request) (σ : server) :
  (required (req_body req !! "title") = true ∧
   required (req_body req !! "description") = true ∧
   (req_body req !! "characters" = None ∨ isString (req_body req !! "characters") = true) ∧
   webtoons σ !! fresh_id e = None ∧
   post_webtoons_handler e req σ
   = (res_status_json 201 (DocBody (fresh_id e) (<["__v" := JNum 0]> (pick (req_body req)))),
      set_webtoons σ
        (<[fresh_id e := <["__v" := JNum 0]> (pick (req_body req))]> (webtoons σ)))) ∨
  (status (post_webtoons_handler e req σ).1 ≠ 201 ∧
   (post_webtoons_handler e req σ).2 = σ ∧
   ¬ (required (req_body req !! "title") = true ∧
      required (req_body req !! "description") = true ∧
      (req_body req !! "characters" = None ∨ isString (req_body req !! "characters") = true) ∧
      webtoons σ !! fresh_id e = None)).
Proof.
  unfold post_webtoons_handler.
  destruct (validateWebtoon (req_body req)) as [|err errs] eqn:Hv.
  - apply validateWebtoon_nil in Hv as (Ht & Hd & Hc).
    unfold save.
    destruct (failing_paths (pick (req_body req))) as [|path paths] eqn:Hf.
    + apply failing_paths_nil in Hf as [Hrt Hrd].
      rewrite pick_path in Hrt, Hrd by (unfold schema_path; auto).
      destruct (webtoons σ !! fresh_id e) eqn:Hid; simpl.
      * right. repeat split; try done. by intros (_ & _ & _ & ?).
      * by left.
    + right. repeat split; try done. intros (Hrt & Hrd & _).
      assert (failing_paths (pick (req_body req)) = []); [|congruence].
      apply failing_paths_nil. by rewrite !pick_path by (unfold schema_path; auto).
  - right. repeat split; try done.
    intros (Ht%required_isString & Hd%required_isString & Hc & _).
    assert (validateWebtoon (req_body req) = []) by by apply validateWebtoon_nil.
    congruence.
Qed.
End HandlerFacts.

Section CollectionFacts.
Context {J : Jws} {M : Mongoose}.

(** A protected route either answers like the middleware's [catch], or
    runs its handler on the request with the verified payload attached. *)
Lemma protected_cases handler (e : env) (req : request) (σ : server) :
  (rejection (authenticateJWT req (now e)) = Some InvalidToken ∧
   protected handler e req σ = (InvalidToken, σ)) ∨
  (∃ verified, authenticateJWT req (now e) = Next (set_user req verified) ∧
               protected handler e req σ = handler (set_user req verified) σ).
Proof.
  unfold protected. rewrite authenticateJWT_cases.
  destruct (header_Authorization req) as [h|]; [|by left].
  destruct (jwt_verify _ _ _) as [verified|err]; [right; by exists verified|by left].
Qed.

(** What the handler of [DELETE /webtoons/:id] does, by the id. *)
Lemma delete_webtoon_handler_cases (req : request) (σ : server) :
  (∃ oid doc, castObjectId (params_id req) = Some oid ∧ webtoons σ !! oid = Some doc ∧
      delete_webtoon_handler req σ
      = (res_json (MessageBody "Webtoon deleted successfully"),
         set_webtoons σ (delete oid (webtoons σ)))) ∨
  (status (delete_webtoon_handler req σ).1 ≠ 200 ∧ (delete_webtoon_handler req σ).2 = σ).
Proof.
  unfold delete_webtoon_handler, findByIdAndDelete.
  destruct (castObjectId (params_id req)) as [oid|]; [|by right].
  destruct (webtoons σ !! oid) as [doc|] eqn:Hdoc; [|by right].
  left. by exists oid, doc.
Qed.
End CollectionFacts.

Lemma saved_stored_from (b : object) : stored_from b (<["__v" := JNum 0]> (pick b)).
Proof.
  split; [|split].
  - intros k Hk. by apply saved_path.
  - apply lookup_insert_eq.
  - intros k Hk Hv _. by apply saved_other.
Qed.

(** X9: [POST /webtoons] behind an accepted credential answers 201
    exactly when [title] and [description] are strings that are not
    empty, [characters] is absent or a string, and the new id is not
    taken; it then stores, and returns, a document under that id with
    the body's three fields and the version key.  In every other case
    the answer is not 201 and the state is unchanged. *)
Theorem X9_post_outcome {M : Mongoose} (e : env) (req : request) (σ : server) :
  (status (post_webtoons_handler e req σ).1 = 201 ↔
   required (req_body req !! "title") = true ∧
   required (req_body req !! "description") = true ∧
   (req_body req !! "characters" = None ∨ isString (req_body req !! "characters") = true) ∧
   webtoons σ !! fresh_id e = None) ∧
  (status (post_webtoons_handler e req σ).1 = 201 →
   ∃ doc,
     stored_from (req_body req) doc ∧
     post_webtoons_handler e req σ
     = (res_status_json 201 (DocBody (fresh_id e) doc),
        set_webtoons σ (<[fresh_id e := doc]> (webtoons σ)))) ∧
  (status (post_webtoons_handler e req σ).1 ≠ 201 →
   (post_webtoons_handler e req σ).2 = σ).
Proof.
  destruct (post_webtoons_handler_cases e req σ)
    as [(Ht & Hd & Hc & Hid & Heq)|(Hst & Hσ & Hnot)].
  - rewrite Heq. simpl. split; [done|]. split; [|done].
    intros _. eexists. split; [apply saved_stored_from|done].
  - repeat split; try done.
Qed.

(** X10: an empty [title] or [description] gets past the validators,
    which only ask for a string, and is then refused by the schema's
    [required]: the answer is 500 with the message of the validation
    error for the failing paths, not 400, and nothing is stored. *)
Theorem X10_empty_title_is_a_server_error {M : Mongoose}
    (e : env) (req : request) (σ : server) :
  validateWebtoon (req_body req) = [] →
  req_body req !! "title" = Some (JStr "") ∨ req_body req !! "description" = Some (JStr "") →
  status (post_webtoons_handler e req σ).1 = 500 ∧
  (∃ paths, paths ≠ [] ∧
     post_webtoons_handler e req σ
     = (res_status_json 500 (ErrorBody (validationErrorMessage paths)), σ)).
Proof.
  intros Hv Hempty. unfold post_webtoons_handler. rewrite Hv. unfold save.
  destruct (failing_paths (pick (req_body req))) as [|path paths] eqn:Hf.
  - apply failing_paths_nil in Hf as [Hrt Hrd].
    rewrite pick_path in Hrt, Hrd by (unfold schema_path; auto).
    destruct Hempty as [Hempty|Hempty]; rewrite Hempty in *; discriminate.
  - simpl. split; [reflexivity|]. exists (path :: paths). split; [discriminate|reflexivity].
Qed.

Lemma X10_empty_title_is_a_server_error_witness :
  validateWebtoon {["title" := JStr ""; "description" := JStr "Y"]} = [] ∧
  status (post_webtoons_handler Sample.e1
            (mkRequest None "" {["title" := JStr ""; "description" := JStr "Y"]} None)
            initial).1 = 500.
Proof.
  split; [reflexivity|].
  apply (X10_empty_title_is_a_server_error (M := mongoose) Sample.e1
           (mkRequest None "" {["title" := JStr ""; "description" := JStr "Y"]} None) initial).
  - reflexivity.
  - left. reflexivity.
Defined.

Section RouteFacts.
Context {J : Jws} {M : Mongoose}.

Lemma post_webtoons_created (e : env) (req : request) (σ : server) :
  status (post_webtoons e req σ).1 = 201 →
  rejection (authenticateJWT req (now e)) = None ∧
  required (req_body req !! "title") = true ∧
  required (req_body req !! "description") = true ∧
  (req_body req !! "characters" = None ∨ isString (req_body req !! "characters") = true) ∧
  webtoons σ !! fresh_id e = None ∧
  post_webtoons e req σ
  = (res_status_json 201 (DocBody (fresh_id e) (<["__v" := JNum 0]> (pick (req_body req)))),
     set_webtoons σ
       (<[fresh_id e := <["__v" := JNum 0]> (pick (req_body req))]> (webtoons σ))).
Proof.
  unfold post_webtoons.
  destruct (protected_cases (post_webtoons_handler e) e req σ)
    as [[_ ->]|(verified & Hauth & ->)]; [discriminate|].
  rewrite Hauth.
  destruct (post_webtoons_handler_cases e (set_user req verified) σ)
    as [(Ht & Hd & Hc & Hid & ->)|(Hst & _)]; [done|].
  intros Hst'. by destruct Hst.
Qed.

Lemma delete_webtoon_deleted (e : env) (req : request) (σ : server) :
  status (delete_webtoon e req σ).1 = 200 →
  rejection (authenticateJWT req (now e)) = None ∧
  ∃ oid doc, castObjectId (params_id req) = Some oid ∧ webtoons σ !! oid = Some doc ∧
    delete_webtoon e req σ
    = (res_json (MessageBody "Webtoon deleted successfully"),
       set_webtoons σ (delete oid (webtoons σ))).
Proof.
  unfold delete_webtoon.
  destruct (protected_cases delete_webtoon_handler e req σ)
    as [[_ ->]|(verified & Hauth & ->)]; [discriminate|].
  rewrite Hauth.
  destruct (delete_webtoon_handler_cases (set_user req verified) σ)
    as [(oid & doc & Hcast & Hdoc & ->)|(Hst & _)].
  - intros _. split; [done|]. by exists oid, doc.
  - intros Hst'. by destruct Hst.
Qed.

End RouteFacts.

(** X11: a document that [POST /webtoons] created can be fetched.  After
    a 201, [GET /webtoons/:id] with an id that casts to the new [_id]
    answers 200 with a document that has the body's [title],
    [description] and [characters], the version key, and no other field
    of the body. *)
Theorem X11_created_then_fetched {J : Jws} {M : Mongoose}
    (e : env) (req req' : request) (σ : server) :
  status (post_webtoons e req σ).1 = 201 →
  castObjectId (params_id req') = Some (fresh_id e) →
  ∃ doc,
    stored_from (req_body req) doc ∧
    get_webtoon req' (post_webtoons e req σ).2
    = (res_json (DocBody (fresh_id e) doc), (post_webtoons e req σ).2).
Proof.
  intros (_ & _ & _ & _ & _ & ->)%post_webtoons_created Hcast.
  eexists. split; [apply saved_stored_from|].
  unfold get_webtoon, findById. rewrite Hcast. simpl.
  by rewrite lookup_insert_eq.
Qed.

Lemma X11_created_then_fetched_witness :
  status (post_webtoons Sample.e1 Scenario.post_request initial).1 = 201 ∧
  ∃ doc,
    doc !! "title" = Some (JStr "X") ∧ doc !! "isAdmin" = None ∧
    (get_webtoon (Sample.with_id Scenario.id0) Scenario.posted).1
    = res_json (DocBody Scenario.id0 doc).
Proof.
  assert (H201 : status (post_webtoons Sample.e1 Scenario.post_request initial).1 = 201)
    by (vm_compute; reflexivity).
  destruct (X11_created_then_fetched (J := jws) (M := mongoose) Sample.e1 Scenario.post_request
              (Sample.with_id Scenario.id0) initial H201 ltac:(vm_compute; reflexivity))
    as (doc & (Hpaths & _ & Hother) & Hget).
  split; [exact H201|]. exists doc. split; [|split].
  - rewrite Hpaths by (left; reflexivity). reflexivity.
  - apply Hother; [|discriminate..]. intros [?|[?|?]]; discriminate.
  - unfold Scenario.posted. by rewrite Hget.
Defined.

(** X12: after a 201, [GET /webtoons] returns the new document together
    with every document that was there before, and nothing else. *)
Theorem X12_created_then_listed {J : Jws} {M : Mongoose}
    (e : env) (req : request) (σ : server) :
  status (post_webtoons e req σ).1 = 201 →
  ∃ doc docs,
    stored_from (req_body req) doc ∧
    get_webtoons (post_webtoons e req σ).2
    = (res_json (DocsBody docs), (post_webtoons e req σ).2) ∧
    docs ≡ₚ (fresh_id e, doc) :: map_to_list (webtoons σ).
Proof.
  intros (_ & _ & _ & _ & Hid & ->)%post_webtoons_created.
  eexists _, _. split; [apply saved_stored_from|].
  split; [reflexivity|]. simpl. by apply map_to_list_insert.
Qed.

Lemma X12_created_then_listed_witness :
  status (post_webtoons Sample.e1 Scenario.post_request initial).1 = 201 ∧
  ∃ doc docs,
    stored_from (req_body Scenario.post_request) doc ∧
    get_webtoons Scenario.posted = (res_json (DocsBody docs), Scenario.posted) ∧
    docs ≡ₚ (Scenario.id0, doc) :: map_to_list (webtoons initial).
Proof.
  assert (H201 : status (post_webtoons Sample.e1 Scenario.post_request initial).1 = 201)
    by (vm_compute; reflexivity).
  split; [exact H201|].
  exact (X12_created_then_listed (J := jws) (M := mongoose)
           Sample.e1 Scenario.post_request initial H201).
Defined.

(** X13: [DELETE /webtoons/:id] with an accepted credential, for an id
    that casts to the [_id] of a stored document, answers 200 and removes
    that document and no other.  Afterwards a [GET] of the id answers 404,
    and so does a second [DELETE], which changes nothing. *)
Theorem X13_delete_removes_one {J : Jws} {M : Mongoose}
    (e : env) (req : request) (σ : server) (oid : string) (doc : object) :
  rejection (authenticateJWT req (now e)) = None →
  castObjectId (params_id req) = Some oid →
  webtoons σ !! oid = Some doc →
  delete_webtoon e req σ
  = (res_json (MessageBody "Webtoon deleted successfully"),
     set_webtoons σ (delete oid (webtoons σ))) ∧
  (∀ oid', oid' ≠ oid →
     webtoons (delete_webtoon e req σ).2 !! oid' = webtoons σ !! oid') ∧
  get_webtoon req (delete_webtoon e req σ).2
  = (res_status_json 404 (ErrorBody "Webtoon not found"), (delete_webtoon e req σ).2) ∧
  delete_webtoon e req (delete_webtoon e req σ).2
  = (res_status_json 404 (ErrorBody "Webtoon not found"), (delete_webtoon e req σ).2).
Proof.
  intros Hauth Hcast Hdoc.
  assert (Hdel : ∀ σ0, ∃ v, delete_webtoon e req σ0
                              = delete_webtoon_handler (set_user req v) σ0).
  { intros σ0. unfold delete_webtoon.
    destruct (protected_cases delete_webtoon_handler e req σ0)
      as [[Hrej _]|(v & _ & ->)]; [congruence|by exists v]. }
  assert (Hfirst : delete_webtoon e req σ
                   = (res_json (MessageBody "Webtoon deleted successfully"),
                      set_webtoons σ (delete oid (webtoons σ)))).
  { destruct (Hdel σ) as [v ->].
    unfold delete_webtoon_handler, findByIdAndDelete. simpl.
    by rewrite Hcast, Hdoc. }
  rewrite Hfirst. simpl. split; [done|]. split; [|split].
  - intros oid' Hne. by rewrite lookup_delete_ne.
  - unfold get_webtoon, findById. rewrite Hcast. simpl. by rewrite lookup_delete_eq.
  - destruct (Hdel (set_webtoons σ (delete oid (webtoons σ)))) as [v ->].
    unfold delete_webtoon_handler, findByIdAndDelete. simpl.
    by rewrite Hcast, lookup_delete_eq.
Qed.

Lemma X13_delete_removes_one_witness :
  rejection (authenticateJWT Scenario.delete_request 5000) = None ∧
  delete_webtoon Sample.e2 Scenario.delete_request Scenario.posted
  = (res_json (MessageBody "Webtoon deleted successfully"),
     set_webtoons Scenario.posted (delete Scenario.id0 (webtoons Scenario.posted))).
Proof.
  split; [vm_compute; reflexivity|].
  apply (X13_delete_removes_one (J := jws) (M := mongoose) Sample.e2 Scenario.delete_request Scenario.posted
           Scenario.id0 (<["__v" := JNum 0]> (pick (req_body Scenario.post_request)))).
  - vm_compute; reflexivity.
  - vm_compute; reflexivity.
  - vm_compute; reflexivity.
Defined.

(** X14: creating a document and deleting it again leaves the collection
    as it was before the two requests. *)
Theorem X14_created_then_deleted {J : Jws} {M : Mongoose}
    (e e' : env) (req req' : request) (σ : server) :
  status (post_webtoons e req σ).1 = 201 →
  rejection (authenticateJWT req' (now e')) = None →
  castObjectId (params_id req') = Some (fresh_id e) →
  (delete_webtoon e' req' (post_webtoons e req σ).2).1
  = res_json (MessageBody "Webtoon deleted successfully") ∧
  webtoons (delete_webtoon e' req' (post_webtoons e req σ).2).2 = webtoons σ.
Proof.
  intros (_ & _ & _ & _ & Hid & ->)%post_webtoons_created Hauth Hcast. simpl.
  unfold delete_webtoon.
  destruct (protected_cases delete_webtoon_handler e' req'
              (set_webtoons σ
                 (<[fresh_id e := <["__v" := JNum 0]> (pick (req_body req))]> (webtoons σ))))
    as [[Hrej _]|(v & _ & ->)]; [congruence|].
  unfold delete_webtoon_handler, findByIdAndDelete. simpl.
  rewrite Hcast, lookup_insert_eq. simpl. split; [done|].
  by apply delete_insert_id.
Qed.

Lemma X14_created_then_deleted_witness :
  status (post_webtoons Sample.e1 Scenario.post_request initial).1 = 201 ∧
  webtoons (delete_webtoon Sample.e2 Scenario.delete_request
              (post_webtoons Sample.e1 Scenario.post_request initial).2).2
  = webtoons initial.
Proof.
  assert (H201 : status (post_webtoons Sample.e1 Scenario.post_request initial).1 = 201)
    by (vm_compute; reflexivity).
  split; [exact H201|].
  apply (X14_created_then_deleted (J := jws) (M := mongoose) Sample.e1 Sample.e2 Scenario.post_request
           Scenario.delete_request initial H201).
  - vm_compute; reflexivity.
  - vm_compute; reflexivity.
Defined.

(** ** The application as a whole *)

Section AppFacts.
Context {J : Jws} {B : Bcrypt} {M : Mongoose}.

(** What a request does to the collection: nothing, or one insertion by
    an accepted [POST /webtoons], or one removal by an accepted
    [DELETE /webtoons/:id]. *)
Lemma app_webtoons_cases (r : route) (e : env) (req : request) (σ : server) :
  webtoons (app r e req σ).2 = webtoons σ ∨
  (r = POST_webtoons ∧ status (app r e req σ).1 = 201 ∧
   rejection (authenticateJWT req (now e)) = None ∧
   required (req_body req !! "title") = true ∧
   required (req_body req !! "description") = true ∧
   (req_body req !! "characters" = None ∨ isString (req_body req !! "characters") = true) ∧
   webtoons (app r e req σ).2
   = <[fresh_id e := <["__v" := JNum 0]> (pick (req_body req))]> (webtoons σ)) ∨
  (r = DELETE_webtoons_id ∧ status (app r e req σ).1 = 200 ∧
   rejection (authenticateJWT req (now e)) = None ∧
   ∃ oid, webtoons (app r e req σ).2 = delete oid (webtoons σ)).
Proof.
  destruct (app_cases r e req σ)
    as [(code & page & _ & ->)|[(_ & _ & ->)|(_ & _ & ->)]]; [by left..|].
  set (σ1 := set_hits σ _). change (webtoons σ) with (webtoons σ1).
  destruct r as [u p|u p| | | |]; simpl.
  - left. unfold register. by destruct (find_user u (users σ1)).
  - left. by rewrite login_state.
  - by left.
  - left. by rewrite get_webtoon_state.
  - destruct (decide (status (post_webtoons e req σ1).1 = 201)) as [H201|Hst].
    + right. left. destruct (post_webtoons_created e req σ1 H201)
        as (Hauth & Ht & Hd & Hc & _ & Heq).
      rewrite Heq. by repeat split.
    + left. unfold post_webtoons in *.
      destruct (protected_cases (post_webtoons_handler e) e req σ1)
        as [[_ ->]|(v & _ & Heq)]; [done|]. rewrite Heq in *.
      by destruct (post_webtoons_handler_cases e (set_user req v) σ1)
        as [(_ & _ & _ & _ & Heq')|(_ & -> & _)]; [rewrite Heq' in Hst; destruct Hst|].
  - destruct (decide (status (delete_webtoon e req σ1).1 = 200)) as [H200|Hst].
    + right. right. destruct (delete_webtoon_deleted e req σ1 H200)
        as (Hauth & oid & doc & _ & _ & Heq).
      rewrite Heq. repeat split; try done. by exists oid.
    + left. unfold delete_webtoon in *.
      destruct (protected_cases delete_webtoon_handler e req σ1)
        as [[_ ->]|(v & _ & Heq)]; [done|]. rewrite Heq in *.
      destruct (delete_webtoon_handler_cases (set_user req v) σ1)
        as [(oid & doc & _ & _ & Heq')|[_ ->]]; [|done].
      rewrite Heq' in Hst. by destruct Hst.
Qed.

End AppFacts.

(** X15: a request changes the collection only behind an accepted
    credential: by a [POST /webtoons] answered with 201 or by a
    [DELETE /webtoons/:id] answered with 200.  Registration, login, the
    two [GET] routes, rejected credentials, failed validations and
    throttled requests leave it as it is. *)
Theorem X15_collection_changes_only_when_authenticated
    {J : Jws} {B : Bcrypt} {M : Mongoose}
    (r : route) (e : env) (req : request) (σ : server) :
  webtoons (app r e req σ).2 ≠ webtoons σ →
  rejection (authenticateJWT req (now e)) = None ∧
  (r = POST_webtoons ∧ status (app r e req σ).1 = 201 ∨
   r = DELETE_webtoons_id ∧ status (app r e req σ).1 = 200).
Proof.
  intros Hchanged.
  destruct (app_webtoons_cases r e req σ)
    as [?|[(-> & H201 & Hauth & _)|(-> & H200 & Hauth & _)]]; [done| |].
  - split; [done|]. by left.
  - split; [done|]. by right.
Qed.

Lemma X15_collection_changes_only_when_authenticated_witness :
  webtoons (app POST_webtoons Sample.e1 Scenario.post_request initial).2 ≠ webtoons initial ∧
  rejection (authenticateJWT Scenario.post_request 2000) = None ∧
  status (app POST_webtoons Sample.e1 Scenario.post_request initial).1 = 201.
Proof.
  assert (Hne : webtoons (app POST_webtoons Sample.e1 Scenario.post_request initial).2
                ≠ webtoons initial).
  { intros Heq. apply (f_equal (λ ws : gmap string object, ws !! Scenario.id0)) in Heq.
    vm_compute in Heq. discriminate. }
  destruct (X15_collection_changes_only_when_authenticated
              (J := jws) (B := bcrypt) (M := mongoose)
              POST_webtoons Sample.e1 Scenario.post_request initial Hne)
    as [Hauth [[_ H201]|[Hr _]]]; [|discriminate].
  by repeat split.
Defined.

(** X16: the body parser is in front of the limiter, the limiter in
    front of every route, and no handler touches the counters.  A request
    whose body parses is counted exactly once, whatever its route and
    however it ends; when the limiter does not admit it, the answer is
    the limiter's 429 and users and collection are untouched, whatever
    credential it carries.  A request whose body the parser refuses is
    answered by the parser and is not counted. *)
Theorem X16_every_request_is_counted {J : Jws} {B : Bcrypt} {M : Mongoose}
    (r : route) (e : env) (req : request) (σ : server) :
  (body_error req = None →
   hits (app r e req σ).2 = (limiter.hit (ip e) (now e) (hits σ)).2 ∧
   ((limiter.hit (ip e) (now e) (hits σ)).1 = false →
    app r e req σ
    = (limiter.TooManyRequests, set_hits σ (limiter.hit (ip e) (now e) (hits σ)).2))) ∧
  (∀ code page,
     body_error req = Some (code, page) →
     app r e req σ = (mkResponse code (TextBody page), σ)).
Proof.
  destruct (app_cases r e req σ)
    as [(code & page & Herr & Heq)|[(Hb & Hv & Heq)|(Hb & Hv & Heq)]]; rewrite Heq.
  - split; [by rewrite Herr|]. intros code' page' Herr'. congruence.
  - split; [|intros ? ?; congruence]. intros _. split; [done|]. by rewrite Hv.
  - split; [|intros ? ?; congruence]. intros _. rewrite router_hits. split; [done|].
    by rewrite Hv.
Qed.

(** X17: every stored document keeps the shape of the schema.  If all
    documents in the collection have a [title] and a [description] that
    are strings and not empty, a [characters] that is a string when
    present, the version key [0], and besides the [_id] no other field,
    this is still so after any events. *)
Theorem X17_documents_keep_schema {J : Jws} {B : Bcrypt} {M : Mongoose}
    (evs : list event) (σ : server) :
  map_Forall (λ _ doc, schema_doc doc) (webtoons σ) →
  map_Forall (λ _ doc, schema_doc doc) (webtoons (run evs σ)).
Proof.
  revert σ. induction evs as [|ev evs IH]; intros σ Hσ; [done|].
  simpl. apply IH. destruct ev as [r e req|e u p]; [|done]. simpl.
  destruct (app_webtoons_cases r e req σ)
    as [->|[(_ & _ & _ & Ht & Hd & Hc & ->)|(_ & _ & _ & oid & ->)]]; [done| |].
  - apply map_Forall_insert_2; [|done].
    unfold schema_doc. rewrite !saved_path by (unfold schema_path; auto).
    split; [done|]. split; [done|]. split; [done|]. split; [apply lookup_insert_eq|].
    intros k Hk. destruct (decide (k = "__v")) as [->|Hv]; [by right; left|].
    left. apply (pick_is_Some (req_body req)). by rewrite lookup_insert_ne in Hk.
  - by apply map_Forall_delete.
Qed.

Lemma X17_documents_keep_schema_witness :
  map_Forall (λ _ doc, schema_doc doc) (webtoons initial) ∧
  map_Forall (λ _ doc, schema_doc doc)
    (webtoons (run [Request POST_webtoons Sample.e1 Scenario.post_request] initial)).
Proof.
  split; [apply map_Forall_empty|].
  apply (X17_documents_keep_schema (J := jws) (B := bcrypt) (M := mongoose)).
  apply map_Forall_empty.
Defined.

(** X18: the duplicate check of [POST /register] does not cover the time
    the handler waits for the hash.  A registration of [U] whose check ran
    before another registration of [U] stored its identity still answers
    200 with a token and pushes a second identity of that name; lookups
    find the first one, so a login with the second password is refused
    whenever it does not match the first hash. *)
Theorem X18_interleaved_registrations {J : Jws} {B : Bcrypt}
    (e e' : env) (u p p' : string) (σ : server) :
  find_user u (users σ) = None →
  (register_resume e' u p' (register e u p σ).2).1
  = res_json (TokenBody "User registered successfully"
                (jwt_sign {["username" := JStr u]} JWT_SECRET (now e'))) ∧
  usernames (register_resume e' u p' (register e u p σ).2).2 = usernames σ ++ [u; u] ∧
  (bcrypt_compare p' (bcrypt_hash p 10 (salt e)) = false →
   ∀ e'', (login e'' u p' (register_resume e' u p' (register e u p σ).2).2).1
          = res_status_json 400 (ErrorBody "Invalid credentials")).
Proof.
  intros Hnew. unfold register. rewrite Hnew. split; [done|]. split.
  - unfold usernames. simpl. by rewrite !fmap_app, <- app_assoc.
  - intros Hwrong e''. unfold login. simpl.
    rewrite (find_user_app u _ _ (mkUser u (bcrypt_hash p 10 (salt e))));
      [|by apply find_user_snoc].
    simpl. by rewrite Hwrong.
Qed.

Lemma X18_interleaved_registrations_witness :
  find_user "a" (users initial) = None ∧
  usernames (register_resume Sample.e1 "a" "q" (register Sample.e0 "a" "p" initial).2).2
  = usernames initial ++ ["a"; "a"].
Proof.
  split; [reflexivity|].
  apply (X18_interleaved_registrations (J := jws) (B := bcrypt)
           Sample.e0 Sample.e1 "a" "p" "q" initial eq_refl).
Defined.

(** X19: [DELETE /webtoons/:id] with an accepted credential, when no
    document has the id: 404 [Webtoon not found] if the id casts to an
    [_id], 500 with the message of the cast error if it does not; the
    state is unchanged either way. *)
Theorem X19_delete_absent {J : Jws} {M : Mongoose}
    (e : env) (req : request) (σ : server) :
  rejection (authenticateJWT req (now e)) = None →
  (∀ oid, castObjectId (params_id req) = Some oid → webtoons σ !! oid = None) →
  delete_webtoon e req σ =
  match castObjectId (params_id req) with
  | Some _ => (res_status_json 404 (ErrorBody "Webtoon not found"), σ)
  | None => (res_status_json 500 (ErrorBody (castErrorMessage (params_id req))), σ)
  end.
Proof.
  intros Hauth Habsent. unfold delete_webtoon.
  destruct (protected_cases delete_webtoon_handler e req σ)
    as [[Hrej _]|(v & _ & ->)]; [congruence|].
  unfold delete_webtoon_handler, findByIdAndDelete. simpl.
  destruct (castObjectId (params_id req)) as [oid|]; [|done].
  by rewrite (Habsent oid).
Qed.

Lemma X19_delete_absent_witness :
  rejection (authenticateJWT Scenario.delete_request 5000) = None ∧
  delete_webtoon Sample.e2 Scenario.delete_request initial
  = (res_status_json 404 (ErrorBody "Webtoon not found"), initial).
Proof.
  split; [vm_compute; reflexivity|].
  apply (X19_delete_absent (J := jws) (M := mongoose) Sample.e2 Scenario.delete_request initial).
  - vm_compute; reflexivity.
  - intros oid _. apply lookup_empty.
Defined.
